(** * map_filter1.py: an interactive map of IIT institutions

    A shallow embedding of [src/map_filter1.py] and the properties of its
    marker composer, its loaders and its entry point.

    Python strings are modelled as [string], read as the UTF-8 bytes of the
    text; exceptions as values of [exn]; functions that may raise return a
    [result]; functions that print or touch files pass a [State] along. *)

From stdpp Require Import base option list strings gmap pretty.
From Stdlib Require Import ZArith Ascii String.

Open Scope string_scope.
Open Scope Z_scope.

(** ** Python values *)

Module Py.

(** The builtin exception classes the program can meet.  All of them are
    subclasses of [Exception]; [Exception_] is the base class itself. *)
Inductive exn_class : Type :=
| Exception_
| KeyError
| ValueError
| TypeError
| IndexError
| OSError
| FileNotFoundError
| PermissionError
| UnicodeDecodeError.

Global Instance exn_class_eq_dec : EqDecision exn_class.
Proof. solve_decision. Defined.

(** An exception object: its class and [str(e)]. *)
Record exn : Type := mk_exn { exn_cls : exn_class; exn_str : string }.

Global Instance exn_eq_dec : EqDecision exn.
Proof. solve_decision. Defined.

(** [isinstance(e, FileNotFoundError)]: the class has no subclass among
    [exn_class]. *)
Definition is_FileNotFoundError (e : exn) : bool :=
  bool_decide (exn_cls e = FileNotFoundError).

Inductive result (A : Type) : Type :=
| Ok (a : A)
| Raise (e : exn).
Global Arguments Ok {A} a.
Global Arguments Raise {A} e.

Definition rbind {A B} (r : result A) (k : A -> result B) : result B :=
  match r with
  | Ok a => k a
  | Raise e => Raise e
  end.

(** The objects a spreadsheet cell can hold once it is read.  A float that
    is not NaN is carried by its [repr], the text Python prints for it. *)
Inductive value : Type :=
| VStr (s : string)
| VInt (z : Z)
| VBool (b : bool)
| VFloat (repr : string)
| VNaN
| VNone.

Global Instance value_eq_dec : EqDecision value.
Proof. solve_decision. Defined.

(** [str(v)], which is also [format(v, '')], what an f-string field uses. *)
Definition str (v : value) : string :=
  match v with
  | VStr s => s
  | VInt z => pretty z
  | VBool true => "True"
  | VBool false => "False"
  | VFloat r => r
  | VNaN => "nan"
  | VNone => "None"
  end.

(** The double-quote character and the line feed. *)
Definition dq : string := String (ascii_of_nat 34) EmptyString.
Definition nl : string := String (ascii_of_nat 10) EmptyString.

(** The pieces of a literal, put together. *)
Definition join (pieces : list string) : string :=
  foldr String.append EmptyString pieces.

(** [repr(k)] of a key without quotes or escapes in it: ['k']. *)
Definition repr_key (k : string) : string := "'" +:+ k +:+ "'".

End Py.
Export Py.

Notation "x <- r ;; k" := (rbind r (fun x => k))
  (at level 100, r at next level, right associativity, only parsing).

(** ** urllib.parse.quote *)

Module Urllib.

(** [_ALWAYS_SAFE]: the bytes [quote] never escapes. *)
Definition ALWAYS_SAFE : string :=
  "ABCDEFGHIJKLMNOPQRSTUVWXYZabcdefghijklmnopqrstuvwxyz0123456789_.-~".

Fixpoint mem (c : ascii) (s : string) : bool :=
  match s with
  | EmptyString => false
  | String d s' => if Ascii.eqb c d then true else mem c s'
  end.

(** One upper-case hexadecimal digit. *)
Definition hex_digit (n : N) : ascii :=
  if (n <? 10)%N then ascii_of_N (48 + n) else ascii_of_N (55 + n).

(** ['%{:02X}'.format(b)] *)
Definition percent (b : ascii) : string :=
  let n := N_of_ascii b in
  String "%" (String (hex_digit (n / 16)) (String (hex_digit (n mod 16)) EmptyString)).

(** The quoter of one byte: the byte itself when it is safe. *)
Definition quoter (safe : string) (b : ascii) : string :=
  if mem b (ALWAYS_SAFE +:+ safe) then String b EmptyString else percent b.

(** [quote(string, safe)] on the UTF-8 bytes of [string]: the concatenation
    of the quoted bytes. *)
Fixpoint quote (s : string) (safe : string) : string :=
  match s with
  | EmptyString => EmptyString
  | String b s' => quoter safe b +:+ quote s' safe
  end.

End Urllib.

(** ** pandas: rows and tables *)

Module Pandas.

(** A row as [iterrows] yields it: the column labels and the cells. *)
Record Series : Type := mk_Series { index : list string; values : list value }.

(** A table: the header and the data rows, in source order. *)
Record DataFrame : Type := mk_DataFrame { columns : list string; rows : list (list value) }.

Fixpoint get_loc (key : string) (labels : list string) : option nat :=
  match labels with
  | [] => None
  | l :: ls => if String.eqb key l then Some O else S <$> get_loc key ls
  end.

(** [row[key]]: [KeyError] when no column has that label; a cell the row is
    too short for is empty (NaN). *)
Definition getitem (row : Series) (key : string) : result value :=
  match get_loc key (index row) with
  | None => Raise (mk_exn KeyError (repr_key key))
  | Some i => Ok (nth i (values row) VNaN)
  end.

(** [data.iterrows()], without the row labels the program ignores. *)
Definition iterrows (data : DataFrame) : list Series :=
  map (mk_Series (columns data)) (rows data).

End Pandas.
Export Pandas.

(** ** folium: the objects the program builds *)

Module Folium.

(** [folium.Popup(html=..., max_width=...)] *)
Record Popup : Type := mk_Popup { html : string; max_width : Z }.

(** [folium.Icon(color=..., icon=..., prefix=...)] *)
Record Icon : Type := mk_Icon { color : string; icon_name : string; prefix : string }.

(** [folium.Marker(location=[lat, lon], popup=..., icon=...)]: the location
    holds the two cells as the program passes them. *)
Record Marker : Type :=
  mk_Marker { location : value * value; popup : Popup; icon : Icon }.

(** What a feature group holds: the boundary layer [folium.GeoJson(data=...)]
    and markers. *)
Inductive Layer : Type :=
| GeoJson (data : string)
| MarkerLayer (m : Marker).

(** [folium.FeatureGroup(name)] and the children added to it, oldest first. *)
Record FeatureGroup : Type :=
  mk_FeatureGroup { fg_name : string; fg_children : list Layer }.

(** [fg.add_child(child)] *)
Definition fg_add_child (fg : FeatureGroup) (child : Layer) : FeatureGroup :=
  mk_FeatureGroup (fg_name fg) (fg_children fg ++ [child]).

(** [folium.Map(location=..., zoom_start=..., tiles=...)], the elements added
    to the [html] part of its root and the children the program adds to the
    map itself. *)
Record Map : Type := mk_Map {
  map_location : value * value;
  zoom_start : Z;
  tiles : string;
  root_html : list string;
  map_children : list FeatureGroup
}.

Definition new_Map (loc : value * value) (zoom : Z) (t : string) : Map :=
  mk_Map loc zoom t [] [].

(** [map_obj.get_root().html.add_child(folium.Element(text))] *)
Definition root_html_add_child (m : Map) (text : string) : Map :=
  mk_Map (map_location m) (zoom_start m) (tiles m) (root_html m ++ [text]) (map_children m).

(** [map_obj.add_child(fg)] *)
Definition map_add_child (m : Map) (fg : FeatureGroup) : Map :=
  mk_Map (map_location m) (zoom_start m) (tiles m) (root_html m) (map_children m ++ [fg]).

(** The markers among the layers of a group, in order. *)
Definition markers_of (ls : list Layer) : list Marker :=
  omap (fun l => match l with MarkerLayer m => Some m | GeoJson _ => None end) ls.

End Folium.
Export Folium.

(** ** The libraries and the operating system

    What the program calls but does not define.  Each field is the outcome of
    one call; the program's own control flow is modelled around them. *)

Class Env : Type := {
  (** [pd.read_excel] on the bytes of a workbook it could open *)
  parse_excel : string -> result DataFrame;
  (** the UTF-8 decoder on the bytes of a file *)
  utf_8_decode : string -> result string;
  (** [folium.GeoJson(data=text)]: the exception it raises, if any *)
  GeoJson_error : string -> option exn;
  (** the check [folium.Marker] makes of its location: the exception it
      raises, if any *)
  validate_location : value -> value -> option exn;
  (** the bytes [save] writes for a map in this run: folium gives every
      element it renders an id of its own, drawn anew in each run, so the
      [render] of two runs may give different bytes for one map *)
  render : Map -> string;
  (** opening a path for writing: the exception it raises, if any *)
  open_for_writing_error : string -> option exn;
  (** opening for reading a path that is there but is no file that can be
      read (a directory, a file without read permission): the exception it
      raises; [None] for a path that is not there at all *)
  open_for_reading_error : string -> option exn
}.

(** ** The world the program runs in: files and the standard output *)

Record State : Type := mk_State {
  fs : gmap string string;     (* path of a file that can be read -> its bytes *)
  stdout : list string         (* the arguments of the [print] calls so far *)
}.

Definition M (A : Type) : Type := State -> result A * State.

Definition ret {A} (a : A) : M A := fun s => (Ok a, s).
Definition raise {A} (e : exn) : M A := fun s => (Raise e, s).
Definition bind {A B} (m : M A) (k : A -> M B) : M B :=
  fun s => match m s with
           | (Ok a, s') => k a s'
           | (Raise e, s') => (Raise e, s')
           end.
(** [try: m  except Exception as e: h e] *)
Definition try_except {A} (m : M A) (h : exn -> M A) : M A :=
  fun s => match m s with
           | (Ok a, s') => (Ok a, s')
           | (Raise e, s') => h e s'
           end.
Definition lift {A} (r : result A) : M A := fun s => (r, s).
Definition print (line : string) : M unit :=
  fun s => (Ok tt, mk_State (fs s) (stdout s ++ [line])).

Notation "x <~ m ;; k" := (bind m (fun x => k))
  (at level 100, m at next level, right associativity, only parsing).
Notation "m ;;; k" := (bind m (fun _ => k))
  (at level 100, right associativity, only parsing).

(** [open(path, 'rb')] and reading it whole: a path that is no readable file
    raises the error of the opening, [FileNotFoundError] when nothing is
    there. *)
Definition read_bytes `{E : Env} (path : string) : M string :=
  fun s => match fs s !! path with
           | Some bytes => (Ok bytes, s)
           | None =>
               match open_for_reading_error path with
               | Some e => (Raise e, s)
               | None => (Raise (mk_exn FileNotFoundError
                            ("[Errno 2] No such file or directory: " +:+ repr_key path)), s)
               end
           end.

(** The codec [utf-8-sig]: a leading byte-order mark EF BB BF is dropped. *)
Definition BOM : string :=
  String (ascii_of_nat 239) (String (ascii_of_nat 187) (String (ascii_of_nat 191) EmptyString)).

Definition strip_bom (bytes : string) : string :=
  if String.prefix BOM bytes then String.substring 3 (String.length bytes - 3) bytes
  else bytes.

(** Text mode with the default [newline=None]: CR LF and CR are read as LF. *)
Fixpoint universal_newlines (s : string) : string :=
  match s with
  | EmptyString => EmptyString
  | String c s' =>
      if Ascii.eqb c (ascii_of_nat 13) then
        match s' with
        | String d s'' =>
            if Ascii.eqb d (ascii_of_nat 10) then String d (universal_newlines s'')
            else String (ascii_of_nat 10) (universal_newlines s')
        | EmptyString => String (ascii_of_nat 10) EmptyString
        end
      else String c (universal_newlines s')
  end.

(** ** The program: [src/map_filter1.py] *)

Section Program.

Context `{E : Env}.

(** [pd.read_excel(file_path, engine="openpyxl")] *)
Definition read_excel (file_path : string) : M DataFrame :=
  bytes <~ read_bytes file_path ;; lift (parse_excel bytes).

Definition load_iit_data (file_path : string) : M DataFrame :=
  try_except (read_excel file_path)
    (fun e =>
       if is_FileNotFoundError e then
         raise (mk_exn FileNotFoundError ("Excel file not found at: " +:+ file_path))
       else
         raise (mk_exn Exception_ ("Error reading Excel file: " +:+ exn_str e))).

(** [with open(path, "r", encoding="utf-8-sig") as f: f.read()] *)
Definition read_text_utf_8_sig (path : string) : M string :=
  bytes <~ read_bytes path ;;
  text <~ lift (utf_8_decode (strip_bom bytes)) ;;
  ret (universal_newlines text).

(** [folium.GeoJson(data=geojson_data)] *)
Definition new_GeoJson (geojson_data : string) : M Layer :=
  match GeoJson_error geojson_data with
  | Some e => raise e
  | None => ret (GeoJson geojson_data)
  end.

Definition create_feature_group (geojson_path : string) : M FeatureGroup :=
  try_except
    (let fg := mk_FeatureGroup "map" [] in
     geojson_data <~ read_text_utf_8_sig geojson_path ;;
     layer <~ new_GeoJson geojson_data ;;
     ret (fg_add_child fg layer))
    (fun e =>
       if is_FileNotFoundError e then
         raise (mk_exn FileNotFoundError ("GeoJSON file not found at: " +:+ geojson_path))
       else
         raise (mk_exn Exception_ ("Error creating feature group: " +:+ exn_str e))).

(** The f-string of [create_popup_html], with its four fields filled in. *)
Definition popup_fstring (college ranking score image_url : string) : string :=
  join [
    nl;
    "    <div style="; dq; "width:300px; padding:10px;"; dq; ">"; nl;
    "        <h4 style="; dq; "color:#2c3e50; margin-bottom:10px; font-family: Arial, sans-serif;"; dq; ">"; nl;
    "            "; college; nl;
    "        </h4>"; nl;
    "        <p style="; dq; "margin:5px 0;"; dq; "><b>Rank among IIT in India:</b> "; ranking; "</p>"; nl;
    "        <p style="; dq; "margin:5px 0;"; dq; "><b>NIRF Score:</b> "; score; "</p>"; nl;
    "        <div style="; dq; "margin-top:10px; text-align:center;"; dq; ">"; nl;
    "            <img src="; dq; image_url; dq; " "; nl;
    "                 style="; dq; "max-width:100%; "; nl;
    "                        height:200px; "; nl;
    "                        object-fit:cover; "; nl;
    "                        border-radius:5px; "; nl;
    "                        box-shadow: 0 2px 4px rgba(0,0,0,0.1);"; dq; nl;
    "                 onerror="; dq; "this.onerror=null; this.src='https://via.placeholder.com/300x200?text=Image+Not+Available';"; dq; nl;
    "            >"; nl;
    "        </div>"; nl;
    "    </div>"; nl;
    "    "
  ].

Definition create_popup_html (row : Series) : result string :=
  image <- getitem row "Image" ;;
  let image_url := Urllib.quote (str image) ":/?=" in
  college <- getitem row "IIT College" ;;
  ranking <- getitem row "IIT Ranking" ;;
  score <- getitem row "NIRF Score" ;;
  Ok (popup_fstring (str college) (str ranking) (str score) image_url).

(** [folium.Marker(location=[lat, lon], popup=popup, icon=icon)] *)
Definition new_Marker (lat lon : value) (p : Popup) (i : Icon) : result Marker :=
  match validate_location lat lon with
  | Some e => Raise e
  | None => Ok (mk_Marker (lat, lon) p i)
  end.

(** The marker the body of the [try] builds for one row. *)
Definition compose_marker (row : Series) : result Marker :=
  h <- create_popup_html row ;;
  let popup := mk_Popup h 300 in
  lat <- getitem row "Latitude" ;;
  lon <- getitem row "Longitude" ;;
  new_Marker lat lon popup (mk_Icon "red" "university" "fa").

(** One turn of the loop of [add_iit_markers]: the [try] and its handler.
    The feature group and the output are the two things it changes. *)
Definition add_iit_marker (row : Series) (fg : FeatureGroup) (out : list string)
  : result unit * FeatureGroup * list string :=
  match compose_marker row with
  | Ok m => (Ok tt, fg_add_child fg (MarkerLayer m), out)
  | Raise e =>
      match getitem row "IIT College" with
      | Ok college =>
          (Ok tt, fg,
           (out ++ ["Error adding marker for " +:+ str college +:+ ": " +:+ exn_str e])%list)
      | Raise e' => (Raise e', fg, out)
      end
  end.

Fixpoint add_iit_markers_rows (rs : list Series) (fg : FeatureGroup) (out : list string)
  : result unit * FeatureGroup * list string :=
  match rs with
  | [] => (Ok tt, fg, out)
  | row :: rest =>
      match add_iit_marker row fg out with
      | (Ok _, fg', out') => add_iit_markers_rows rest fg' out'
      | (Raise e, fg', out') => (Raise e, fg', out')
      end
  end.

Definition add_iit_markers (fg : FeatureGroup) (data : DataFrame) (out : list string)
  : result unit * FeatureGroup * list string :=
  add_iit_markers_rows (iterrows data) fg out.

Definition css : string :=
  join [
    nl;
    "    <style>"; nl;
    "        .folium-popup {"; nl;
    "            font-family: Arial, sans-serif;"; nl;
    "        }"; nl;
    "        .folium-popup img {"; nl;
    "            max-width: 100%;"; nl;
    "            height: auto;"; nl;
    "            display: block;"; nl;
    "            margin: 10px auto;"; nl;
    "        }"; nl;
    "        .folium-popup h4 {"; nl;
    "            color: #2c3e50;"; nl;
    "            border-bottom: 2px solid #3498db;"; nl;
    "            padding-bottom: 5px;"; nl;
    "        }"; nl;
    "        .folium-popup p {"; nl;
    "            margin: 5px 0;"; nl;
    "            color: #34495e;"; nl;
    "        }"; nl;
    "    </style>"; nl;
    "    "
  ].

(** [map_obj.save(output_file)] *)
Definition save (map_obj : Map) (output_file : string) : M unit :=
  fun s => match open_for_writing_error output_file with
           | Some e => (Raise e, s)
           | None => (Ok tt, mk_State (<[output_file := render map_obj]> (fs s)) (stdout s))
           end.

(** The call of [add_iit_markers] inside [create_iit_map]: it prints, and
    leaves the markers in [fg]. *)
Definition call_add_iit_markers (fg : FeatureGroup) (data : DataFrame) : M FeatureGroup :=
  fun s => match add_iit_markers fg data (stdout s) with
           | (Ok _, fg', out') => (Ok fg', mk_State (fs s) out')
           | (Raise e, _, out') => (Raise e, mk_State (fs s) out')
           end.

(** The map as it stands when [create_iit_map] reaches [save]. *)
Definition assemble (fg : FeatureGroup) (data : DataFrame) : M Map :=
  let map_obj := new_Map (VFloat "20.5937", VFloat "78.9629") 5 "CartoDB positron" in
  let map_obj := root_html_add_child map_obj css in
  fg' <~ call_add_iit_markers fg data ;;
  ret (map_add_child map_obj fg').

Definition create_iit_map (data_file geojson_file output_file : string) : M unit :=
  data <~ load_iit_data data_file ;;
  fg <~ create_feature_group geojson_file ;;
  map_obj <~ assemble fg data ;;
  save map_obj output_file.

Definition main : M unit :=
  let data_file := "iit_data.xlsx" in
  let geojson_file := "india_states.json" in
  let output_file := "final12.html" in
  try_except
    (create_iit_map data_file geojson_file output_file ;;;
     print ("Map created successfully! Open " +:+ output_file +:+ " in a web browser to view."))
    (fun e =>
       print ("Error creating map: " +:+ exn_str e) ;;;
       print (nl +:+ "Please ensure:") ;;;
       print "1. Your Excel file contains all required columns" ;;;
       print "2. Image URLs are valid and accessible" ;;;
       print "3. GeoJSON file exists and is valid").

(** [if __name__ == "__main__": main()]: the exit status of the process is 0
    unless an exception leaves [main]. *)
Definition run (s : State) : Z * State :=
  match main s with
  | (Ok _, s') => (0, s')
  | (Raise _, s') => (1, s')
  end.

End Program.

(** ** The composer, as the specification words it

    The markers of a table: its rows in order, each row whose marker cannot be
    composed left out. *)

Definition marker_of `{E : Env} (row : Series) : option Marker :=
  match compose_marker row with
  | Ok m => Some m
  | Raise _ => None
  end.

Definition composed `{E : Env} (data : DataFrame) : list Marker :=
  omap marker_of (iterrows data).

(** The rows whose marker is composed, in order. *)
Definition composable `{E : Env} (data : DataFrame) : list Series :=
  filter (fun row => is_Some (marker_of row)) (iterrows data).

(** The six columns the program reads. *)
Definition required_columns : list string :=
  ["IIT College"; "IIT Ranking"; "NIRF Score"; "Latitude"; "Longitude"; "Image"].

(** Every row has the required fields and a location the marker accepts. *)
Definition complete `{E : Env} (data : DataFrame) : Prop :=
  Forall (fun key => is_Some (get_loc key (columns data))) required_columns /\
  Forall (fun row => forall lat lon,
            getitem row "Latitude" = Ok lat -> getitem row "Longitude" = Ok lon ->
            validate_location lat lon = None)
         (iterrows data).

(** [x] occurs in [s]. *)
Definition occurs_in (x s : string) : Prop :=
  exists pre post, s = pre +:+ x +:+ post.

(** Percent-decoding, the inverse the encoding is meant to have. *)
Definition hex_value (c : ascii) : option N :=
  let n := N_of_ascii c in
  if ((48 <=? n) && (n <=? 57))%N then Some (n - 48)%N
  else if ((65 <=? n) && (n <=? 70))%N then Some (n - 55)%N
  else if ((97 <=? n) && (n <=? 102))%N then Some (n - 87)%N
  else None.

Fixpoint unquote (s : string) : string :=
  match s with
  | EmptyString => EmptyString
  | String c s' =>
      match s' with
      | String h (String l s'') =>
          if Ascii.eqb c "%" then
            match hex_value h, hex_value l with
            | Some a, Some b => String (ascii_of_N (16 * a + b)) (unquote s'')
            | _, _ => String c (unquote s')
            end
          else String c (unquote s')
      | _ => String c (unquote s')
      end
  end.

(** ** Sample data *)

Module Sample.

Definition header : list string :=
  ["IIT College"; "IIT Ranking"; "NIRF Score"; "Latitude"; "Longitude"; "Image"].

Definition madras : list value :=
  [VStr "IIT Madras"; VInt 1; VFloat "89.46"; VFloat "12.9915"; VFloat "80.2337";
   VStr "http://x/a b.png"].

Definition delhi : list value :=
  [VStr "IIT Delhi"; VInt 2; VFloat "86.66"; VFloat "28.545"; VFloat "77.1926"; VNaN].

(** A row whose latitude cell is empty. *)
Definition nowhere : list value :=
  [VStr "IIT Nowhere"; VInt 3; VFloat "1.5"; VNaN; VFloat "77.0"; VStr "http://x/n.png"].

Definition table : DataFrame := mk_DataFrame header [madras; delhi].
Definition table_with_gap : DataFrame := mk_DataFrame header [madras; nowhere; delhi].

(** A row of a sheet that has no [Image] column. *)
Definition imageless : Series :=
  mk_Series ["IIT College"; "IIT Ranking"; "NIRF Score"; "Latitude"; "Longitude"]
            [VStr "IIT Madras"; VInt 1; VFloat "89.46"; VFloat "12.9915"; VFloat "80.2337"].

(** A table whose sheet has no [IIT College] column. *)
Definition nameless : DataFrame :=
  mk_DataFrame ["IIT Ranking"; "NIRF Score"; "Latitude"; "Longitude"; "Image"]
               [[VInt 1; VFloat "89.46"; VFloat "12.9915"; VFloat "80.2337";
                 VStr "http://x/a.png"]].

Definition is_number (v : value) : bool :=
  match v with
  | VInt _ | VFloat _ | VBool _ => true
  | _ => false
  end.

Definition boundary : string :=
  "{" +:+ dq +:+ "type" +:+ dq +:+ ": " +:+ dq +:+ "FeatureCollection" +:+ dq
      +:+ ", " +:+ dq +:+ "features" +:+ dq +:+ ": []}".

(** One behaviour of the libraries: the workbook bytes [xlsx] hold [table],
    [xlsx-nameless] hold [nameless], anything else is not a workbook; every
    file decodes; the text [boundary] is a geometry and any other text is
    refused by the JSON parser; a location is accepted when both cells are
    numbers; every path but the empty one can be written; a path is either
    a file that can be read or not there. *)
Definition env : Env := {|
  parse_excel bytes :=
    if String.eqb bytes "xlsx" then Ok table
    else if String.eqb bytes "xlsx-nameless" then Ok nameless
    else Raise (mk_exn ValueError "File is not a zip file");
  utf_8_decode bytes := Ok bytes;
  GeoJson_error text :=
    if String.eqb text boundary then None
    else Some (mk_exn ValueError
                 "Expecting property name enclosed in double quotes: line 1 column 2 (char 1)");
  validate_location lat lon :=
    if is_number lat && is_number lon then None
    else Some (mk_exn ValueError "Location values cannot contain NaNs.");
  render m :=
    join (root_html m ++
          flat_map (fun fg => map (fun l => match l with
                                            | GeoJson d => d
                                            | MarkerLayer mk => html (popup mk)
                                            end) (fg_children fg))
                   (map_children m));
  open_for_writing_error path :=
    if String.eqb path EmptyString
    then Some (mk_exn FileNotFoundError "[Errno 2] No such file or directory: ''")
    else None;
  open_for_reading_error path := None
|}.

Definition files : gmap string string :=
  <["iit_data.xlsx" := "xlsx"]> (<["india_states.json" := BOM +:+ boundary]> ∅).

Definition start : State := mk_State files [].

(** The same, with the workbook that has no name column. *)
Definition start_nameless : State :=
  mk_State (<["iit_data.xlsx" := "xlsx-nameless"]> files) [].

(** The same, with a boundary file that is not a geometry. *)
Definition start_bad_boundary : State :=
  mk_State (<["india_states.json" := "{not a geometry"]> files) [].

(** The same, with a workbook that is not a workbook. *)
Definition start_bad_workbook : State :=
  mk_State (<["iit_data.xlsx" := "junk"]> files) [].

(** Only the boundary file is there. *)
Definition start_no_workbook : State :=
  mk_State (<["india_states.json" := BOM +:+ boundary]> ∅) [].

(** Only the workbook is there. *)
Definition start_no_boundary : State :=
  mk_State (<["iit_data.xlsx" := "xlsx"]> ∅) [].


End Sample.

(** ** What the loop prints

    The line the handler of [add_iit_markers] prints for a row: none when the
    marker is composed, and none when the row has no name to print. *)

Definition diagnostic_of `{E : Env} (row : Series) : option string :=
  match compose_marker row with
  | Ok _ => None
  | Raise e =>
      match getitem row "IIT College" with
      | Ok college =>
          Some ("Error adding marker for " +:+ str college +:+ ": " +:+ exn_str e)
      | Raise _ => None
      end
  end.

(** The lines printed for a table, in the order of its rows. *)
Definition diagnostics `{E : Env} (data : DataFrame) : list string :=
  omap diagnostic_of (iterrows data).

(** The map [create_iit_map] saves for a feature group. *)
Definition map_of (fg : FeatureGroup) : Map :=
  map_add_child
    (root_html_add_child
       (new_Map (VFloat "20.5937", VFloat "78.9629") 5 "CartoDB positron") css)
    fg.


(** Every byte of [s] is one of [allowed]. *)
Definition all_in (allowed s : string) : Prop :=
  Forall (fun c => Urllib.mem c allowed = true) (list_ascii_of_string s).

(** ** More sample data *)

Module Cases.

(** A sheet that has names but no coordinates. *)
Definition coordless : DataFrame :=
  mk_DataFrame ["IIT College"; "IIT Ranking"; "NIRF Score"; "Image"]
               [[VStr "IIT Madras"; VInt 1; VFloat "89.46"; VStr "http://x/a.png"];
                [VStr "IIT Delhi"; VInt 2; VFloat "86.66"; VNaN]].

(** Another behaviour of the libraries: as [Sample.env], with two more
    workbooks, and a boundary constructor that takes a text starting with
    neither a brace nor a bracket for the name of a file, which is not there. *)
Definition env : Env := {|
  parse_excel bytes :=
    if String.eqb bytes "xlsx-gap" then Ok Sample.table_with_gap
    else if String.eqb bytes "xlsx-coordless" then Ok coordless
    else @parse_excel Sample.env bytes;
  utf_8_decode := @utf_8_decode Sample.env;
  GeoJson_error text :=
    if String.prefix "{" text || String.prefix "[" text
    then @GeoJson_error Sample.env text
    else Some (mk_exn FileNotFoundError
                 ("[Errno 2] No such file or directory: " +:+ repr_key text));
  validate_location := @validate_location Sample.env;
  render := @render Sample.env;
  open_for_writing_error := @open_for_writing_error Sample.env;
  open_for_reading_error := @open_for_reading_error Sample.env
|}.

(** As [Sample.env], on a machine where the workbook is there but may not be
    read. *)
Definition locked : Env := {|
  parse_excel := @parse_excel Sample.env;
  utf_8_decode := @utf_8_decode Sample.env;
  GeoJson_error := @GeoJson_error Sample.env;
  validate_location := @validate_location Sample.env;
  render := @render Sample.env;
  open_for_writing_error := @open_for_writing_error Sample.env;
  open_for_reading_error path :=
    if String.eqb path "iit_data.xlsx"
    then Some (mk_exn PermissionError "[Errno 13] Permission denied: 'iit_data.xlsx'")
    else None
|}.


(** The workbook has a row without a latitude. *)
Definition start_gap : State :=
  mk_State (<["iit_data.xlsx" := "xlsx-gap"]> Sample.files) [].

(** The workbook has no coordinates at all. *)
Definition start_coordless : State :=
  mk_State (<["iit_data.xlsx" := "xlsx-coordless"]> Sample.files) [].

(** The boundary file holds a line of plain text. *)
Definition start_plain_boundary : State :=
  mk_State (<["india_states.json" := "boundary goes here"]> Sample.files) [].

(** The boundary file has no byte-order mark. *)
Definition start_no_bom : State :=
  mk_State (<["india_states.json" := Sample.boundary]> Sample.files) [].

End Cases.

(** * Properties *)

(** ** Percent-encoding *)

Section Quote.

Import Urllib.

Lemma unquote_cons (c : ascii) (s : string) :
  Ascii.eqb c "%" = false -> unquote (String c s) = String c (unquote s).
Proof.
  intros Hc. destruct s as [|h [|l s'']]; simpl; rewrite ?Hc; reflexivity.
Qed.

Lemma safe_is_not_percent (c : ascii) :
  mem c (ALWAYS_SAFE +:+ ":/?=") = true -> Ascii.eqb c "%" = false.
Proof.
  destruct (Ascii.eqb c "%") eqn:Hc; [|reflexivity].
  apply Ascii.eqb_eq in Hc. subst c. vm_compute. discriminate.
Qed.

Lemma unquote_percent (b : ascii) (s : string) :
  unquote (percent b +:+ s) = String b (unquote s).
Proof.
  destruct b as [[] [] [] [] [] [] [] []]; reflexivity.
Qed.

Lemma unquote_quoter (b : ascii) (s : string) :
  unquote (quoter ":/?=" b +:+ s) = String b (unquote s).
Proof.
  unfold quoter. destruct (mem b (ALWAYS_SAFE +:+ ":/?=")) eqn:Hsafe.
  - apply unquote_cons, safe_is_not_percent, Hsafe.
  - apply unquote_percent.
Qed.

Lemma append_cons (x : ascii) (a b : string) :
  String x a +:+ b = String x (a +:+ b).
Proof. reflexivity. Qed.

Lemma append_assoc (a b c : string) : (a +:+ b) +:+ c = a +:+ (b +:+ c).
Proof.
  induction a as [|x a IH]; [reflexivity|].
  rewrite !append_cons. now rewrite IH.
Qed.

Lemma unquote_quote_app (s t : string) :
  unquote (quote s ":/?=" +:+ t) = s +:+ unquote t.
Proof.
  induction s as [|b s IH]; [reflexivity|].
  cbn [quote]. rewrite append_assoc, unquote_quoter, IH. reflexivity.
Qed.

Lemma append_empty_r (a : string) : a +:+ EmptyString = a.
Proof.
  induction a as [|x a IH]; [reflexivity|].
  rewrite append_cons. now rewrite IH.
Qed.

(** Decoding the encoded text gives the text back. *)
Lemma unquote_quote (s : string) : unquote (quote s ":/?=") = s.
Proof.
  rewrite <- (append_empty_r (quote s ":/?=")), unquote_quote_app.
  apply append_empty_r.
Qed.

(** The four characters named safe are left as they are. *)
Lemma quoter_safe (c : ascii) :
  mem c ":/?=" = true -> quoter ":/?=" c = String c EmptyString.
Proof.
  intros Hc. unfold quoter.
  cbn [mem] in Hc.
  repeat match type of Hc with
         | (if Ascii.eqb c ?d then _ else _) = true =>
             let Hd := fresh "Hd" in
             destruct (Ascii.eqb c d) eqn:Hd;
             [apply Ascii.eqb_eq in Hd; subst c; reflexivity|]
         end.
  discriminate.
Qed.

(** A byte that is neither always safe nor named safe becomes [%XX]. *)
Lemma quoter_unsafe (c : ascii) :
  mem c (ALWAYS_SAFE +:+ ":/?=") = false -> quoter ":/?=" c = percent c.
Proof. intros Hc. unfold quoter. now rewrite Hc. Qed.

End Quote.

(** ** Popups *)

Lemma occurs_in_intro (pre x post s : string) :
  s = pre +:+ x +:+ post -> occurs_in x s.
Proof. intros ->. now exists pre, post. Qed.

Lemma occurs_in_popup_src (college ranking score image_url : string) :
  occurs_in ("<img src=" +:+ dq +:+ image_url +:+ dq)
            (popup_fstring college ranking score image_url).
Proof.
  exists (join [
      nl;
      "    <div style="; dq; "width:300px; padding:10px;"; dq; ">"; nl;
      "        <h4 style="; dq; "color:#2c3e50; margin-bottom:10px; font-family: Arial, sans-serif;"; dq; ">"; nl;
      "            "; college; nl;
      "        </h4>"; nl;
      "        <p style="; dq; "margin:5px 0;"; dq; "><b>Rank among IIT in India:</b> "; ranking; "</p>"; nl;
      "        <p style="; dq; "margin:5px 0;"; dq; "><b>NIRF Score:</b> "; score; "</p>"; nl;
      "        <div style="; dq; "margin-top:10px; text-align:center;"; dq; ">"; nl;
      "            "]).
  exists (join [
      " "; nl;
      "                 style="; dq; "max-width:100%; "; nl;
      "                        height:200px; "; nl;
      "                        object-fit:cover; "; nl;
      "                        border-radius:5px; "; nl;
      "                        box-shadow: 0 2px 4px rgba(0,0,0,0.1);"; dq; nl;
      "                 onerror="; dq; "this.onerror=null; this.src='https://via.placeholder.com/300x200?text=Image+Not+Available';"; dq; nl;
      "            >"; nl;
      "        </div>"; nl;
      "    </div>"; nl;
      "    "]).
  unfold popup_fstring, join. cbn [foldr].
  rewrite !append_assoc. reflexivity.
Qed.

(** What [create_popup_html] returns, when it returns. *)
Lemma create_popup_html_Ok (row : Series) (h : string) :
  create_popup_html row = Ok h ->
  exists image college ranking score,
    getitem row "Image" = Ok image /\
    getitem row "IIT College" = Ok college /\
    getitem row "IIT Ranking" = Ok ranking /\
    getitem row "NIRF Score" = Ok score /\
    h = popup_fstring (str college) (str ranking) (str score)
                      (Urllib.quote (str image) ":/?=").
Proof.
  unfold create_popup_html, rbind. intros H.
  destruct (getitem row "Image") as [image|]; [|discriminate].
  destruct (getitem row "IIT College") as [college|]; [|discriminate].
  destruct (getitem row "IIT Ranking") as [ranking|]; [|discriminate].
  destruct (getitem row "NIRF Score") as [score|]; [|discriminate].
  injection H as <-. now exists image, college, ranking, score.
Qed.

(** C2. Whenever the popup of a record is built, its HTML holds an image
    element whose source is the record's image reference percent-encoded:
    decoding the source gives the reference back, the characters [:], [/], [?]
    and [=] stand unescaped, every other byte outside the always-safe set is
    written [%XX]; for the reference [http://x/a b.png] the popup holds
    [http://x/a%20b.png]. *)
Theorem popup_embeds_quoted_image (row : Series) (h : string) :
  create_popup_html row = Ok h ->
  exists image,
    getitem row "Image" = Ok image /\
    occurs_in ("<img src=" +:+ dq +:+ Urllib.quote (str image) ":/?=" +:+ dq) h /\
    unquote (Urllib.quote (str image) ":/?=") = str image /\
    (forall c, Urllib.mem c ":/?=" = true ->
               Urllib.quoter ":/?=" c = String c EmptyString) /\
    (forall c, Urllib.mem c (Urllib.ALWAYS_SAFE +:+ ":/?=") = false ->
               Urllib.quoter ":/?=" c = Urllib.percent c) /\
    (image = VStr "http://x/a b.png" ->
     occurs_in ("<img src=" +:+ dq +:+ "http://x/a%20b.png" +:+ dq) h).
Proof.
  intros H.
  destruct (create_popup_html_Ok row h H)
    as (image & college & ranking & score & Hi & _ & _ & _ & ->).
  exists image. split; [exact Hi|].
  split; [apply occurs_in_popup_src|].
  split; [apply unquote_quote|].
  split; [apply quoter_safe|].
  split; [apply quoter_unsafe|].
  intros ->. apply (occurs_in_popup_src _ _ _ "http://x/a%20b.png").
Qed.

Lemma popup_embeds_quoted_image_witness :
  exists image,
    getitem (mk_Series Sample.header Sample.madras) "Image" = Ok image /\
    occurs_in ("<img src=" +:+ dq +:+ Urllib.quote (str image) ":/?=" +:+ dq)
      (popup_fstring "IIT Madras" "1" "89.46" "http://x/a%20b.png") /\
    unquote (Urllib.quote (str image) ":/?=") = str image /\
    (forall c, Urllib.mem c ":/?=" = true ->
               Urllib.quoter ":/?=" c = String c EmptyString) /\
    (forall c, Urllib.mem c (Urllib.ALWAYS_SAFE +:+ ":/?=") = false ->
               Urllib.quoter ":/?=" c = Urllib.percent c) /\
    (image = VStr "http://x/a b.png" ->
     occurs_in ("<img src=" +:+ dq +:+ "http://x/a%20b.png" +:+ dq)
       (popup_fstring "IIT Madras" "1" "89.46" "http://x/a%20b.png")).
Proof.
  apply (popup_embeds_quoted_image (mk_Series Sample.header Sample.madras)).
  reflexivity.
Defined.

(** Without an Image field there is nothing to turn into text: the lookup
    raises before [str] is reached. *)
Lemma create_popup_html_no_image (row : Series) :
  get_loc "Image" (index row) = None ->
  create_popup_html row = Raise (mk_exn KeyError "'Image'").
Proof.
  intros Hn. unfold create_popup_html, rbind, getitem. now rewrite Hn.
Qed.

(** C9, as it is worded, asks for the name, rank, score, latitude and
    longitude fields only.  A row of a sheet that has no Image column has all
    five, and building its popup raises [KeyError]. *)
Lemma popup_needs_image_field :
  ~ (forall (row : Series) (college ranking score lat lon : value),
       getitem row "IIT College" = Ok college ->
       getitem row "IIT Ranking" = Ok ranking ->
       getitem row "NIRF Score" = Ok score ->
       getitem row "Latitude" = Ok lat ->
       getitem row "Longitude" = Ok lon ->
       exists h, create_popup_html row = Ok h).
Proof.
  intros H.
  destruct (H Sample.imageless (VStr "IIT Madras") (VInt 1) (VFloat "89.46")
              (VFloat "12.9915") (VFloat "80.2337")
              eq_refl eq_refl eq_refl eq_refl eq_refl) as [h Hh].
  rewrite create_popup_html_no_image in Hh by reflexivity. discriminate.
Qed.

(** C9, amended. For a record whose name, rank, score and Image fields are
    present, building the popup HTML returns whatever the Image cell holds:
    the cell is turned into text by [str] before it is percent-encoded, so an
    empty (NaN), [None] or non-text cell gives a popup whose image source is
    that text. *)
Theorem popup_for_any_image (row : Series) (college ranking score image : value) :
  getitem row "IIT College" = Ok college ->
  getitem row "IIT Ranking" = Ok ranking ->
  getitem row "NIRF Score" = Ok score ->
  getitem row "Image" = Ok image ->
  create_popup_html row =
    Ok (popup_fstring (str college) (str ranking) (str score)
                      (Urllib.quote (str image) ":/?=")) /\
  occurs_in ("<img src=" +:+ dq +:+ Urllib.quote (str image) ":/?=" +:+ dq)
    (popup_fstring (str college) (str ranking) (str score)
                   (Urllib.quote (str image) ":/?=")) /\
  (image = VNaN -> Urllib.quote (str image) ":/?=" = "nan") /\
  (image = VNone -> Urllib.quote (str image) ":/?=" = "None").
Proof.
  intros Hc Hr Hs Hi. split; [|split; [apply occurs_in_popup_src|]].
  - unfold create_popup_html, rbind. now rewrite Hi, Hc, Hr, Hs.
  - split; intros ->; reflexivity.
Qed.

Lemma popup_for_any_image_witness :
  create_popup_html (mk_Series Sample.header Sample.delhi) =
    Ok (popup_fstring "IIT Delhi" "2" "86.66" "nan").
Proof.
  apply (popup_for_any_image (mk_Series Sample.header Sample.delhi)
           (VStr "IIT Delhi") (VInt 2) (VFloat "86.66") VNaN);
    reflexivity.
Defined.

(** ** The marker composer *)

Section Composer.

Context `{E : Env}.

(** Whether a label is found depends on the header alone. *)
Lemma getitem_row (cols : list string) (cells : list value) (key : string) :
  getitem (mk_Series cols cells) key =
    match get_loc key cols with
    | None => Raise (mk_exn KeyError (repr_key key))
    | Some i => Ok (nth i cells VNaN)
    end.
Proof. reflexivity. Qed.

Lemma getitem_is_Some (row : Series) (key : string) :
  is_Some (get_loc key (index row)) -> exists v, getitem row key = Ok v.
Proof. intros [i Hi]. unfold getitem. rewrite Hi. eauto. Qed.

Lemma getitem_None (row : Series) (key : string) :
  get_loc key (index row) = None ->
  getitem row key = Raise (mk_exn KeyError (repr_key key)).
Proof. intros Hk. unfold getitem. now rewrite Hk. Qed.

(** A marker has the two cells of its row as its location, and the fixed
    icon. *)
Lemma compose_marker_Ok (row : Series) (m : Marker) :
  compose_marker row = Ok m ->
  exists h lat lon,
    create_popup_html row = Ok h /\
    getitem row "Latitude" = Ok lat /\
    getitem row "Longitude" = Ok lon /\
    validate_location lat lon = None /\
    m = mk_Marker (lat, lon) (mk_Popup h 300) (mk_Icon "red" "university" "fa").
Proof.
  unfold compose_marker, rbind, new_Marker. intros H.
  destruct (create_popup_html row) as [h|]; [|discriminate].
  destruct (getitem row "Latitude") as [lat|]; [|discriminate].
  destruct (getitem row "Longitude") as [lon|]; [|discriminate].
  destruct (validate_location lat lon) eqn:Hv; [discriminate|].
  injection H as <-. now exists h, lat, lon.
Qed.

(** Without a name column no popup can be built. *)
Lemma compose_marker_nameless (row : Series) :
  get_loc "IIT College" (index row) = None -> marker_of row = None.
Proof.
  intros Hn. unfold marker_of, compose_marker, create_popup_html, rbind.
  destruct (getitem row "Image"); [|reflexivity].
  now rewrite (getitem_None _ _ Hn).
Qed.

(** One turn of the loop, when the row has a name: it never raises, and
    adds the marker of the row if there is one. *)
Lemma add_iit_marker_named (row : Series) (fg : FeatureGroup) (out : list string) :
  is_Some (get_loc "IIT College" (index row)) ->
  exists out',
    add_iit_marker row fg out =
      (Ok tt,
       mk_FeatureGroup (fg_name fg)
         (fg_children fg ++ map MarkerLayer (option_list (marker_of row))),
       out').
Proof.
  intros Hn. destruct (getitem_is_Some _ _ Hn) as [college Hc].
  unfold add_iit_marker, marker_of.
  destruct (compose_marker row) as [m|e].
  - exists out. reflexivity.
  - rewrite Hc. eexists. simpl. rewrite app_nil_r. now destruct fg.
Qed.

(** One turn of the loop, when the row has no name: the handler raises. *)
Lemma add_iit_marker_nameless (row : Series) (fg : FeatureGroup) (out : list string) :
  get_loc "IIT College" (index row) = None ->
  add_iit_marker row fg out = (Raise (mk_exn KeyError "'IIT College'"), fg, out).
Proof.
  intros Hn. pose proof (compose_marker_nameless _ Hn) as Hm.
  unfold add_iit_marker. unfold marker_of in Hm.
  destruct (compose_marker row); [discriminate|].
  now rewrite (getitem_None _ _ Hn).
Qed.

Lemma layers_cons (row : Series) (rs : list Series) :
  (map MarkerLayer (option_list (marker_of row)) ++
   map MarkerLayer (omap marker_of rs))%list =
  map MarkerLayer (omap marker_of (row :: rs)).
Proof. simpl. destruct (marker_of row); reflexivity. Qed.

Lemma add_iit_markers_rows_named (rs : list Series) :
  Forall (fun row => is_Some (get_loc "IIT College" (index row))) rs ->
  forall fg out, exists out',
    add_iit_markers_rows rs fg out =
      (Ok tt,
       mk_FeatureGroup (fg_name fg)
         (fg_children fg ++ map MarkerLayer (omap marker_of rs)),
       out').
Proof.
  induction 1 as [|row rs Hrow _ IH]; intros fg out.
  - exists out. simpl. rewrite app_nil_r. now destruct fg.
  - destruct (add_iit_marker_named row fg out Hrow) as [out1 H1].
    cbn [add_iit_markers_rows]. rewrite H1.
    destruct (IH (mk_FeatureGroup (fg_name fg)
                    (fg_children fg ++ map MarkerLayer (option_list (marker_of row))))
                 out1) as [out2 H2].
    exists out2. rewrite H2. cbn [fg_name fg_children].
    rewrite <- app_assoc, layers_cons. reflexivity.
Qed.

Lemma add_iit_markers_rows_nameless (rs : list Series) (fg : FeatureGroup)
      (out : list string) :
  Forall (fun row => get_loc "IIT College" (index row) = None) rs ->
  omap marker_of rs = [] /\
  add_iit_markers_rows rs fg out =
    (match rs with
     | [] => Ok tt
     | _ :: _ => Raise (mk_exn KeyError "'IIT College'")
     end, fg, out).
Proof.
  intros Hall. split.
  - induction Hall as [|row rs Hrow _ IH]; [reflexivity|].
    simpl. now rewrite (compose_marker_nameless _ Hrow).
  - destruct Hall as [|row rs Hrow _]; [reflexivity|].
    cbn [add_iit_markers_rows]. now rewrite (add_iit_marker_nameless _ _ _ Hrow).
Qed.

Lemma Forall_iterrows (P : list string -> Prop) (data : DataFrame) :
  P (columns data) -> Forall (fun row => P (index row)) (iterrows data).
Proof.
  intros HP. unfold iterrows. apply Forall_forall.
  intros row Hin. apply list_elem_of_fmap in Hin as (cells & -> & _). exact HP.
Qed.

(** The loop over a table whose sheet has a name column returns, whatever
    the rows hold. *)
Lemma add_iit_markers_named (fg : FeatureGroup) (data : DataFrame) (out : list string) :
  is_Some (get_loc "IIT College" (columns data)) ->
  exists out',
    add_iit_markers fg data out =
      (Ok tt,
       mk_FeatureGroup (fg_name fg) (fg_children fg ++ map MarkerLayer (composed data)),
       out').
Proof.
  intros Hn. unfold add_iit_markers, composed.
  apply add_iit_markers_rows_named.
  apply (Forall_iterrows (fun cols => is_Some (get_loc "IIT College" cols))), Hn.
Qed.

(** The loop over a table whose sheet has no name column stops at its first
    row, with the [KeyError] of the handler. *)
Lemma add_iit_markers_nameless (fg : FeatureGroup) (data : DataFrame) (out : list string) :
  get_loc "IIT College" (columns data) = None ->
  composed data = [] /\
  add_iit_markers fg data out =
    (match rows data with
     | [] => Ok tt
     | _ :: _ => Raise (mk_exn KeyError "'IIT College'")
     end, fg, out).
Proof.
  intros Hn. unfold add_iit_markers, composed.
  destruct (add_iit_markers_rows_nameless (iterrows data) fg out) as [H1 H2].
  { apply (Forall_iterrows (fun cols => get_loc "IIT College" cols = None)), Hn. }
  split; [exact H1|]. rewrite H2. unfold iterrows.
  now destruct (rows data).
Qed.

(** The feature group after the loop, whether the loop returned or not. *)
Lemma add_iit_markers_group (fg : FeatureGroup) (data : DataFrame) (out : list string) :
  (add_iit_markers fg data out).1.2 =
    mk_FeatureGroup (fg_name fg) (fg_children fg ++ map MarkerLayer (composed data)).
Proof.
  destruct (get_loc "IIT College" (columns data)) eqn:Hn.
  - destruct (add_iit_markers_named fg data out) as [out' H]; [eauto|].
    now rewrite H.
  - destruct (add_iit_markers_nameless fg data out Hn) as [Hc H].
    rewrite H, Hc. simpl. rewrite app_nil_r. now destruct fg.
Qed.

End Composer.

(** Membership in a list that is written out. *)
Ltac in_list :=
  repeat first [apply list_elem_of_here | apply list_elem_of_further].

Section ComposerClaims.

Context `{E : Env}.

Lemma length_omap_le {A B} (f : A -> option B) (l : list A) :
  (List.length (omap f l) <= List.length l)%nat.
Proof.
  induction l as [|x l IH]; [simpl; lia|].
  change (omap f (x :: l))
    with (match f x with Some y => y :: omap f l | None => omap f l end).
  destruct (f x); simpl; lia.
Qed.

Lemma length_omap_all {A B} (f : A -> option B) (l : list A) :
  Forall (fun x => is_Some (f x)) l -> List.length (omap f l) = List.length l.
Proof.
  induction 1 as [|x l [y Hy] _ IH]; [reflexivity|].
  change (omap f (x :: l))
    with (match f x with Some y => y :: omap f l | None => omap f l end).
  rewrite Hy. simpl. now rewrite IH.
Qed.

(** A row with every required field and an accepted location has a marker. *)
Lemma complete_row (row : Series) :
  Forall (fun key => is_Some (get_loc key (index row))) required_columns ->
  (forall lat lon, getitem row "Latitude" = Ok lat -> getitem row "Longitude" = Ok lon ->
                   validate_location lat lon = None) ->
  is_Some (marker_of row).
Proof.
  intros Hcols Hloc.
  assert (Hk : forall key, key ∈ required_columns -> exists v, getitem row key = Ok v).
  { intros key Hin. apply getitem_is_Some.
    rewrite Forall_forall in Hcols. now apply Hcols. }
  destruct (Hk "IIT College") as [college Hc]; [in_list|].
  destruct (Hk "IIT Ranking") as [ranking Hr]; [in_list|].
  destruct (Hk "NIRF Score") as [score Hs]; [in_list|].
  destruct (Hk "Latitude") as [lat Hlat]; [in_list|].
  destruct (Hk "Longitude") as [lon Hlon]; [in_list|].
  destruct (Hk "Image") as [image Hi]; [in_list|].
  unfold marker_of, compose_marker, create_popup_html, rbind, new_Marker.
  rewrite Hi, Hc, Hr, Hs, Hlat, Hlon, (Hloc lat lon Hlat Hlon). eauto.
Qed.

Lemma complete_all_composed (data : DataFrame) :
  complete data -> Forall (fun row => is_Some (marker_of row)) (iterrows data).
Proof.
  intros [Hcols Hlocs]. rewrite Forall_forall in Hlocs.
  apply Forall_forall. intros row Hin.
  apply complete_row; [|now apply Hlocs].
  unfold iterrows in Hin. apply list_elem_of_fmap in Hin as (cells & -> & _).
  exact Hcols.
Qed.

(** C3. The markers the composer adds to the feature group are at most as
    many as the rows of the table, and exactly as many, the loop returning,
    when every row has the six fields and a location the marker accepts. *)
Theorem marker_count (fg : FeatureGroup) (data : DataFrame) (out : list string) :
  exists ms,
    fg_children (add_iit_markers fg data out).1.2 =
      (fg_children fg ++ map MarkerLayer ms)%list /\
    (List.length ms <= List.length (rows data))%nat /\
    (complete data ->
     List.length ms = List.length (rows data) /\
     (add_iit_markers fg data out).1.1 = Ok tt).
Proof.
  exists (composed data). rewrite add_iit_markers_group.
  split; [reflexivity|]. split.
  - unfold composed. etransitivity; [apply length_omap_le|].
    unfold iterrows. now rewrite length_map.
  - intros Hc. split.
    + unfold composed. rewrite length_omap_all by now apply complete_all_composed.
      unfold iterrows. now rewrite length_map.
    + destruct Hc as [Hcols _].
      destruct (add_iit_markers_named fg data out) as [out' H].
      { rewrite Forall_forall in Hcols. apply Hcols. in_list. }
      now rewrite H.
Qed.

Lemma composed_positions (rs : list Series) :
  Forall2 (fun row m =>
             marker_of row = Some m /\
             getitem row "Latitude" = Ok (location m).1 /\
             getitem row "Longitude" = Ok (location m).2)
          (filter (fun row => is_Some (marker_of row)) rs)
          (omap marker_of rs).
Proof.
  induction rs as [|row rs IH]; [constructor|].
  rewrite filter_cons. simpl.
  destruct (decide (is_Some (marker_of row))) as [[m Hm]|Hno].
  - rewrite Hm. constructor; [|exact IH].
    split; [exact Hm|].
    unfold marker_of in Hm. destruct (compose_marker row) as [m'|] eqn:Hc; [|discriminate].
    injection Hm as ->.
    destruct (compose_marker_Ok _ _ Hc) as (h & lat & lon & _ & Hlat & Hlon & _ & ->).
    now split.
  - destruct (marker_of row) as [m|]; [|exact IH].
    exfalso. apply Hno. eauto.
Qed.

(** C4. The markers the composer leaves in the feature group follow the
    order of the rows: they are the rows of the table, in order, without
    those whose marker fails, and the location of each is the pair of the
    Latitude and Longitude cells of its row as they are. *)
Theorem markers_follow_rows (fg : FeatureGroup) (data : DataFrame) (out : list string) :
  fg_children (add_iit_markers fg data out).1.2 =
    (fg_children fg ++ map MarkerLayer (composed data))%list /\
  composable data `sublist_of` iterrows data /\
  Forall2 (fun row m =>
             marker_of row = Some m /\
             getitem row "Latitude" = Ok (location m).1 /\
             getitem row "Longitude" = Ok (location m).2)
          (composable data) (composed data).
Proof.
  rewrite add_iit_markers_group. split; [reflexivity|]. split.
  - apply sublist_filter.
  - apply composed_positions.
Qed.

End ComposerClaims.

Lemma sample_table_complete : @complete Sample.env Sample.table.
Proof.
  split.
  - repeat constructor; vm_compute; eauto.
  - repeat constructor; intros lat lon Hlat Hlon;
      vm_compute in Hlat, Hlon; injection Hlat as <-; injection Hlon as <-;
      reflexivity.
Qed.

Lemma marker_count_witness :
  exists ms,
    fg_children (@add_iit_markers Sample.env (mk_FeatureGroup "map" []) Sample.table []).1.2 =
      ([] ++ map MarkerLayer ms)%list /\
    List.length ms = 2%nat /\
    (@add_iit_markers Sample.env (mk_FeatureGroup "map" []) Sample.table []).1.1 = Ok tt.
Proof.
  destruct (@marker_count Sample.env (mk_FeatureGroup "map" []) Sample.table [])
    as (ms & Hchildren & _ & Hall).
  exists ms. split; [exact Hchildren|]. exact (Hall sample_table_complete).
Defined.

(** C1. A workbook whose sheet has no [IIT College] column: the handler of the
    first row raises [KeyError] itself, the loop does not go on, the run ends
    in the handler of [main] and no map is written. *)
Theorem nameless_sheet_aborts_run :
  (@add_iit_markers Sample.env (mk_FeatureGroup "map" [GeoJson Sample.boundary])
     Sample.nameless []).1.1 = Raise (mk_exn KeyError "'IIT College'") /\
  (@create_iit_map Sample.env "iit_data.xlsx" "india_states.json" "final12.html"
     Sample.start_nameless).1 = Raise (mk_exn KeyError "'IIT College'") /\
  fs (@main Sample.env Sample.start_nameless).2 !! "final12.html" = None /\
  stdout (@main Sample.env Sample.start_nameless).2 =
    ["Error creating map: 'IIT College'";
     nl +:+ "Please ensure:";
     "1. Your Excel file contains all required columns";
     "2. Image URLs are valid and accessible";
     "3. GeoJSON file exists and is valid"].
Proof. vm_compute. repeat split; reflexivity. Qed.

(** ** The pipeline *)

Section Pipeline.

Context `{E : Env}.

(** The loader leaves the world as it is. *)
Lemma load_iit_data_state (file_path : string) (s : State) :
  (load_iit_data file_path s).2 = s.
Proof.
  unfold load_iit_data, try_except, read_excel, bind, read_bytes, lift, raise.
  destruct (fs s !! file_path) as [bytes|].
  - destruct (parse_excel bytes) as [data|e]; [reflexivity|].
    now destruct (is_FileNotFoundError e).
  - destruct (open_for_reading_error file_path) as [e|]; [|reflexivity].
    now destruct (is_FileNotFoundError e).
Qed.

Lemma load_iit_data_missing (file_path : string) (s : State) :
  fs s !! file_path = None ->
  open_for_reading_error file_path = None ->
  load_iit_data file_path s =
    (Raise (mk_exn FileNotFoundError ("Excel file not found at: " +:+ file_path)), s).
Proof.
  intros Hf Ho.
  unfold load_iit_data, try_except, read_excel, bind, read_bytes, lift, raise.
  now rewrite Hf, Ho.
Qed.

(** A path that is there but cannot be read: the error of the opening goes
    through the two clauses like any other. *)
Lemma load_iit_data_unreadable (file_path : string) (e : exn) (s : State) :
  fs s !! file_path = None ->
  open_for_reading_error file_path = Some e ->
  load_iit_data file_path s =
    (if is_FileNotFoundError e
     then Raise (mk_exn FileNotFoundError ("Excel file not found at: " +:+ file_path))
     else Raise (mk_exn Exception_ ("Error reading Excel file: " +:+ exn_str e)), s).
Proof.
  intros Hf Ho.
  unfold load_iit_data, try_except, read_excel, bind, read_bytes, lift, raise.
  rewrite Hf, Ho. now destruct (is_FileNotFoundError e).
Qed.

Lemma load_iit_data_parsed (file_path bytes : string) (s : State) :
  fs s !! file_path = Some bytes ->
  load_iit_data file_path s =
    (match parse_excel bytes with
     | Ok data => Ok data
     | Raise e =>
         if is_FileNotFoundError e
         then Raise (mk_exn FileNotFoundError ("Excel file not found at: " +:+ file_path))
         else Raise (mk_exn Exception_ ("Error reading Excel file: " +:+ exn_str e))
     end, s).
Proof.
  intros Hf.
  unfold load_iit_data, try_except, read_excel, bind, read_bytes, lift, raise.
  rewrite Hf. destruct (parse_excel bytes) as [data|e]; [reflexivity|].
  now destruct (is_FileNotFoundError e).
Qed.

Lemma not_FileNotFoundError (e : exn) :
  exn_cls e <> FileNotFoundError -> is_FileNotFoundError e = false.
Proof. intros He. unfold is_FileNotFoundError. now apply bool_decide_eq_false. Qed.

(** Whether the loader returns, and what, depends on the workbook alone. *)
Lemma load_iit_data_frame (file_path : string) (s1 s2 : State) :
  fs s1 !! file_path = fs s2 !! file_path ->
  (load_iit_data file_path s1).1 = (load_iit_data file_path s2).1.
Proof.
  intros Hf. destruct (fs s2 !! file_path) as [bytes|] eqn:H2.
  - now rewrite (load_iit_data_parsed _ bytes s1 Hf), (load_iit_data_parsed _ bytes s2 H2).
  - destruct (open_for_reading_error file_path) as [e|] eqn:Ho.
    + now rewrite (load_iit_data_unreadable _ e s1 Hf Ho),
        (load_iit_data_unreadable _ e s2 H2 Ho).
    + now rewrite (load_iit_data_missing _ s1 Hf Ho), (load_iit_data_missing _ s2 H2 Ho).
Qed.

(** Reading the boundary file: the bytes without a leading byte-order mark,
    decoded, with the line ends of text mode. *)
Lemma read_text_utf_8_sig_found (path bytes : string) (s : State) :
  fs s !! path = Some bytes ->
  read_text_utf_8_sig path s =
    (text <- utf_8_decode (strip_bom bytes) ;; Ok (universal_newlines text), s).
Proof.
  intros Hf. unfold read_text_utf_8_sig, bind, read_bytes, lift, ret, rbind.
  rewrite Hf. now destruct (utf_8_decode (strip_bom bytes)).
Qed.

Lemma read_text_utf_8_sig_missing (path : string) (s : State) :
  fs s !! path = None ->
  open_for_reading_error path = None ->
  exists e, read_text_utf_8_sig path s = (Raise e, s) /\ exn_cls e = FileNotFoundError.
Proof.
  intros Hf Ho. unfold read_text_utf_8_sig, bind, read_bytes.
  rewrite Hf, Ho. eauto.
Qed.

Lemma read_text_utf_8_sig_unreadable (path : string) (e : exn) (s : State) :
  fs s !! path = None ->
  open_for_reading_error path = Some e ->
  read_text_utf_8_sig path s = (Raise e, s).
Proof.
  intros Hf Ho. unfold read_text_utf_8_sig, bind, read_bytes.
  now rewrite Hf, Ho.
Qed.

Lemma read_text_utf_8_sig_state (path : string) (s : State) :
  (read_text_utf_8_sig path s).2 = s.
Proof.
  destruct (fs s !! path) as [bytes|] eqn:Hf.
  - now rewrite (read_text_utf_8_sig_found _ _ _ Hf).
  - destruct (open_for_reading_error path) as [e|] eqn:Ho.
    + now rewrite (read_text_utf_8_sig_unreadable _ _ _ Hf Ho).
    + destruct (read_text_utf_8_sig_missing _ _ Hf Ho) as (e & -> & _). reflexivity.
Qed.

(** The feature group, in terms of what was read. *)
Lemma create_feature_group_unfold (geojson_path : string) (s : State) :
  create_feature_group geojson_path s =
    (match (read_text_utf_8_sig geojson_path s).1 with
     | Ok text =>
         match GeoJson_error text with
         | None => Ok (mk_FeatureGroup "map" [GeoJson text])
         | Some e =>
             if is_FileNotFoundError e
             then Raise (mk_exn FileNotFoundError
                           ("GeoJSON file not found at: " +:+ geojson_path))
             else Raise (mk_exn Exception_
                           ("Error creating feature group: " +:+ exn_str e))
         end
     | Raise e =>
         if is_FileNotFoundError e
         then Raise (mk_exn FileNotFoundError
                       ("GeoJSON file not found at: " +:+ geojson_path))
         else Raise (mk_exn Exception_
                       ("Error creating feature group: " +:+ exn_str e))
     end, s).
Proof.
  pose proof (read_text_utf_8_sig_state geojson_path s) as Hs.
  unfold create_feature_group, try_except, bind, new_GeoJson, raise, ret.
  destruct (read_text_utf_8_sig geojson_path s) as [[text|e] s0];
    simpl in Hs; subst s0; simpl.
  - destruct (GeoJson_error text) as [e|]; [|reflexivity].
    now destruct (is_FileNotFoundError e).
  - now destruct (is_FileNotFoundError e).
Qed.

Lemma create_feature_group_state (geojson_path : string) (s : State) :
  (create_feature_group geojson_path s).2 = s.
Proof. now rewrite create_feature_group_unfold. Qed.

Lemma read_text_utf_8_sig_frame (path : string) (s1 s2 : State) :
  fs s1 !! path = fs s2 !! path ->
  (read_text_utf_8_sig path s1).1 = (read_text_utf_8_sig path s2).1.
Proof.
  intros Hf. unfold read_text_utf_8_sig, bind, read_bytes, lift, ret.
  rewrite Hf. destruct (fs s2 !! path) as [bytes|].
  - now destruct (utf_8_decode (strip_bom bytes)).
  - now destruct (open_for_reading_error path).
Qed.

Lemma create_feature_group_frame (geojson_path : string) (s1 s2 : State) :
  fs s1 !! geojson_path = fs s2 !! geojson_path ->
  (create_feature_group geojson_path s1).1 = (create_feature_group geojson_path s2).1.
Proof.
  intros Hf. rewrite !create_feature_group_unfold. cbn [fst].
  now rewrite (read_text_utf_8_sig_frame _ s1 s2 Hf).
Qed.

End Pipeline.

Section Assembly.

Context `{E : Env}.

(** What one turn of the loop prints is added to what was printed before,
    and nothing else depends on it. *)
Lemma add_iit_marker_out (row : Series) (fg : FeatureGroup) (out : list string) :
  add_iit_marker row fg out =
    ((add_iit_marker row fg []).1.1, (add_iit_marker row fg []).1.2,
     (out ++ (add_iit_marker row fg []).2)%list).
Proof.
  unfold add_iit_marker. destruct (compose_marker row) as [m|e]; simpl.
  - now rewrite app_nil_r.
  - destruct (getitem row "IIT College"); simpl; [reflexivity|now rewrite app_nil_r].
Qed.

Lemma add_iit_markers_rows_out (rs : list Series) :
  forall (fg : FeatureGroup) (out : list string),
    add_iit_markers_rows rs fg out =
      ((add_iit_markers_rows rs fg []).1.1, (add_iit_markers_rows rs fg []).1.2,
       (out ++ (add_iit_markers_rows rs fg []).2)%list).
Proof.
  induction rs as [|row rs IH]; intros fg out.
  - simpl. now rewrite app_nil_r.
  - cbn [add_iit_markers_rows]. rewrite (add_iit_marker_out row fg out).
    destruct (add_iit_marker row fg []) as [[[[]|e] fg1] l1]; simpl.
    + rewrite (IH fg1 (out ++ l1)%list), (IH fg1 l1). simpl.
      now rewrite app_assoc.
    + reflexivity.
Qed.

Lemma add_iit_markers_out (fg : FeatureGroup) (data : DataFrame) (out : list string) :
  add_iit_markers fg data out =
    ((add_iit_markers fg data []).1.1, (add_iit_markers fg data []).1.2,
     (out ++ (add_iit_markers fg data []).2)%list).
Proof. apply add_iit_markers_rows_out. Qed.

(** The whole of [create_iit_map], stage by stage: the world changes only by
    what the loop prints and, at the very end, by the file that is saved. *)
Lemma create_iit_map_unfold (data_file geojson_file output_file : string) (s : State) :
  create_iit_map data_file geojson_file output_file s =
    match (load_iit_data data_file s).1 with
    | Raise e => (Raise e, s)
    | Ok data =>
        match (create_feature_group geojson_file s).1 with
        | Raise e => (Raise e, s)
        | Ok fg =>
            let r := add_iit_markers fg data [] in
            let printed := mk_State (fs s) (stdout s ++ r.2) in
            match r.1.1 with
            | Raise e => (Raise e, printed)
            | Ok _ =>
                match open_for_writing_error output_file with
                | Some e => (Raise e, printed)
                | None =>
                    (Ok tt,
                     mk_State
                       (<[output_file :=
                            render (map_add_child
                                      (root_html_add_child
                                         (new_Map (VFloat "20.5937", VFloat "78.9629") 5
                                                  "CartoDB positron") css)
                                      r.1.2)]> (fs s))
                       (stdout s ++ r.2))
                end
            end
        end
    end.
Proof.
  pose proof (load_iit_data_state data_file s) as Hl.
  pose proof (create_feature_group_state geojson_file s) as Hg.
  unfold create_iit_map, bind.
  destruct (load_iit_data data_file s) as [[data|e] s0]; simpl in Hl; subst s0;
    [|reflexivity].
  destruct (create_feature_group geojson_file s) as [[fg|e] s0]; simpl in Hg; subst s0;
    [|reflexivity].
  cbn [fst]. unfold assemble, bind, call_add_iit_markers, ret, save.
  rewrite (add_iit_markers_out fg data (stdout s)).
  destruct (add_iit_markers fg data []) as [[[[]|e] fg'] lines]; cbn [fst snd];
    [|reflexivity].
  cbn [fs stdout]. now destruct (open_for_writing_error output_file).
Qed.

(** Until it saves, [create_iit_map] leaves every file as it is. *)
Lemma create_iit_map_Raise (data_file geojson_file output_file : string) (s : State)
      (e : exn) (s' : State) :
  create_iit_map data_file geojson_file output_file s = (Raise e, s') ->
  fs s' = fs s.
Proof.
  rewrite create_iit_map_unfold.
  destruct (load_iit_data data_file s).1; [|now intros [= _ <-]].
  destruct (create_feature_group geojson_file s).1; [|now intros [= _ <-]].
  cbv zeta. destruct (add_iit_markers a0 a []).1.1; [|now intros [= _ <-]].
  destruct (open_for_writing_error output_file); [now intros [= _ <-]|discriminate].
Qed.

End Assembly.

Section PipelineClaims.

Context `{E : Env}.

(** C5, as it is worded, asks for [FileNotFoundError] whenever the path does
    not resolve to a file that can be read.  A workbook that is there but may
    not be read is such a path, and the loader wraps the error of the opening
    in a plain [Exception]. *)
Lemma unreadable_workbook_is_not_reported_missing :
  ~ (forall (E : Env) (file_path : string) (s : State),
       fs s !! file_path = None ->
       (@load_iit_data E file_path s).1 =
         Raise (mk_exn FileNotFoundError ("Excel file not found at: " +:+ file_path))).
Proof.
  intros H.
  assert (Hf : fs Sample.start_no_workbook !! "iit_data.xlsx" = None)
    by (vm_compute; reflexivity).
  specialize (H Cases.locked "iit_data.xlsx" Sample.start_no_workbook Hf).
  rewrite (@load_iit_data_unreadable Cases.locked "iit_data.xlsx"
             (mk_exn PermissionError "[Errno 13] Permission denied: 'iit_data.xlsx'")
             Sample.start_no_workbook Hf eq_refl) in H.
  discriminate.
Qed.

(** C5, amended. When nothing is there at the workbook path, the loader
    raises [FileNotFoundError] with a message that names the path,
    [create_iit_map] ends with that exception before it saves, and no file is
    written or changed.  Every other failure of the read, that of opening a
    path that is there but cannot be read as that of the parser on the bytes
    of the file, is raised again as a plain [Exception] that wraps its
    message, and the run ends the same way. *)
Theorem workbook_errors (data_file geojson_file output_file : string) (s : State) :
  (fs s !! data_file = None ->
   open_for_reading_error data_file = None ->
   load_iit_data data_file s =
     (Raise (mk_exn FileNotFoundError ("Excel file not found at: " +:+ data_file)), s) /\
   create_iit_map data_file geojson_file output_file s =
     (Raise (mk_exn FileNotFoundError ("Excel file not found at: " +:+ data_file)), s)) /\
  (forall e,
     fs s !! data_file = None ->
     open_for_reading_error data_file = Some e ->
     exn_cls e <> FileNotFoundError ->
     load_iit_data data_file s =
       (Raise (mk_exn Exception_ ("Error reading Excel file: " +:+ exn_str e)), s) /\
     create_iit_map data_file geojson_file output_file s =
       (Raise (mk_exn Exception_ ("Error reading Excel file: " +:+ exn_str e)), s)) /\
  (forall bytes e,
     fs s !! data_file = Some bytes ->
     parse_excel bytes = Raise e ->
     exn_cls e <> FileNotFoundError ->
     load_iit_data data_file s =
       (Raise (mk_exn Exception_ ("Error reading Excel file: " +:+ exn_str e)), s) /\
     create_iit_map data_file geojson_file output_file s =
       (Raise (mk_exn Exception_ ("Error reading Excel file: " +:+ exn_str e)), s)).
Proof.
  split; [|split].
  - intros Hf Ho. pose proof (load_iit_data_missing _ _ Hf Ho) as Hl.
    split; [exact Hl|]. rewrite create_iit_map_unfold. now rewrite Hl.
  - intros e Hf Ho He.
    pose proof (load_iit_data_unreadable _ _ _ Hf Ho) as Hl.
    rewrite (not_FileNotFoundError _ He) in Hl.
    split; [exact Hl|]. rewrite create_iit_map_unfold. now rewrite Hl.
  - intros bytes e Hf Hp He.
    pose proof (load_iit_data_parsed _ _ _ Hf) as Hl.
    rewrite Hp, (not_FileNotFoundError _ He) in Hl.
    split; [exact Hl|]. rewrite create_iit_map_unfold. now rewrite Hl.
Qed.


(** X21. The boundary file is read as its bytes without a leading byte-order
    mark, decoded as UTF-8.  When nothing is there at the path the builder
    raises [FileNotFoundError] with a message that names the path; when the
    file is there but its bytes do not decode, or its text is refused as a
    geometry, with an error that is not itself a file-not-found error, the
    builder raises an [Exception] that wraps the message of the failure.
    Whenever the builder raises, [create_iit_map] ends with an exception, the
    builder's own if the workbook was loaded, and no file is written or
    changed. *)
Theorem boundary_errors (data_file geojson_file output_file : string) (s : State) :
  (forall bytes,
     fs s !! geojson_file = Some bytes ->
     read_text_utf_8_sig geojson_file s =
       (text <- utf_8_decode (strip_bom bytes) ;; Ok (universal_newlines text), s)) /\
  (forall bytes, strip_bom (BOM +:+ bytes) = bytes) /\
  (forall bytes, String.prefix BOM bytes = false -> strip_bom bytes = bytes) /\
  (fs s !! geojson_file = None ->
   open_for_reading_error geojson_file = None ->
   create_feature_group geojson_file s =
     (Raise (mk_exn FileNotFoundError ("GeoJSON file not found at: " +:+ geojson_file)),
      s)) /\
  (forall bytes text e,
     fs s !! geojson_file = Some bytes ->
     utf_8_decode (strip_bom bytes) = Raise e \/
     (utf_8_decode (strip_bom bytes) = Ok text /\
      GeoJson_error (universal_newlines text) = Some e) ->
     exn_cls e <> FileNotFoundError ->
     create_feature_group geojson_file s =
       (Raise (mk_exn Exception_ ("Error creating feature group: " +:+ exn_str e)), s)) /\
  (forall e s',
     create_feature_group geojson_file s = (Raise e, s') ->
     exists e',
       create_iit_map data_file geojson_file output_file s = (Raise e', s) /\
       (forall data, (load_iit_data data_file s).1 = Ok data -> e' = e)).
Proof.
  split; [intros bytes; apply read_text_utf_8_sig_found|].
  split.
  { intros bytes. unfold strip_bom.
    assert (Hp : String.prefix BOM (BOM +:+ bytes) = true)
      by (destruct bytes; reflexivity).
    rewrite Hp.
    change (BOM +:+ bytes)
      with (String (ascii_of_nat 239)
              (String (ascii_of_nat 187) (String (ascii_of_nat 191) bytes))).
    cbn [String.length Nat.sub String.substring]. rewrite Nat.sub_0_r.
    clear Hp. induction bytes as [|c bytes IH]; [reflexivity|].
    cbn [String.length String.substring]. now rewrite IH. }
  split; [intros bytes Hp; unfold strip_bom; now rewrite Hp|].
  split.
  { intros Hf Ho. rewrite create_feature_group_unfold.
    destruct (read_text_utf_8_sig_missing _ _ Hf Ho) as (e & -> & He). cbn [fst].
    unfold is_FileNotFoundError. now rewrite bool_decide_eq_true_2. }
  split.
  { intros bytes text e Hf Hfail He. rewrite create_feature_group_unfold.
    rewrite (read_text_utf_8_sig_found _ _ _ Hf). cbn [fst]. unfold rbind.
    destruct Hfail as [-> | [-> ->]]; now rewrite (not_FileNotFoundError _ He). }
  intros e s' Hg. rewrite create_iit_map_unfold, Hg. cbn [fst].
  destruct (load_iit_data data_file s).1 as [data|e0].
  - exists e. split; [reflexivity|trivial].
  - exists e0. split; [reflexivity|discriminate].
Qed.

(** C8. The entry point returns whatever happens in the pipeline: [main]
    never raises, the process ends with status 0, and the output ends with
    the line of success when [create_iit_map] returned, and with the message
    of the failure and the four lines of the checklist when it raised. *)
Theorem main_never_raises (s : State) :
  exists s',
    main s = (Ok tt, s') /\
    run s = (0, s') /\
    fs s' = fs (create_iit_map "iit_data.xlsx" "india_states.json" "final12.html" s).2 /\
    stdout s' =
      (stdout (create_iit_map "iit_data.xlsx" "india_states.json" "final12.html" s).2 ++
       match (create_iit_map "iit_data.xlsx" "india_states.json" "final12.html" s).1 with
       | Ok _ =>
           ["Map created successfully! Open final12.html in a web browser to view."]
       | Raise e =>
           ["Error creating map: " +:+ exn_str e;
            nl +:+ "Please ensure:";
            "1. Your Excel file contains all required columns";
            "2. Image URLs are valid and accessible";
            "3. GeoJSON file exists and is valid"]
       end)%list.
Proof.
  unfold run, main, try_except, bind, print.
  destruct (create_iit_map "iit_data.xlsx" "india_states.json" "final12.html" s)
    as [[[]|e] s1]; cbn [fst snd fs stdout].
  - eexists. repeat split; reflexivity.
  - eexists. repeat split; try reflexivity.
    cbn [fs stdout]. now rewrite <- !app_assoc.
Qed.

(** C10. When [create_iit_map] returns, the file it wrote is the rendering
    of a map whose only child is one feature group; the children of that
    group are the boundary layer, made of the text read from the boundary
    file, followed by all the markers composed from the loaded table; and
    the root of the map holds the style block and nothing else. *)
Theorem one_group_holds_all (data_file geojson_file output_file : string)
        (s s' : State) :
  create_iit_map data_file geojson_file output_file s = (Ok tt, s') ->
  exists map_obj fg text data,
    fs s' = <[output_file := render map_obj]> (fs s) /\
    root_html map_obj = [css] /\
    map_children map_obj = [fg] /\
    fg_children fg = GeoJson text :: map MarkerLayer (composed data) /\
    (load_iit_data data_file s).1 = Ok data /\
    (read_text_utf_8_sig geojson_file s).1 = Ok text.
Proof.
  rewrite create_iit_map_unfold.
  destruct (load_iit_data data_file s).1 as [data|e]; [|discriminate].
  rewrite create_feature_group_unfold. cbn [fst].
  destruct (read_text_utf_8_sig geojson_file s).1 as [text|e].
  2:{ now destruct (is_FileNotFoundError e). }
  destruct (GeoJson_error text) as [e|].
  { now destruct (is_FileNotFoundError e). }
  cbv zeta.
  pose proof (add_iit_markers_group (mk_FeatureGroup "map" [GeoJson text]) data [])
    as Hfg.
  destruct (add_iit_markers (mk_FeatureGroup "map" [GeoJson text]) data [])
    as [[[[]|e] fg'] lines]; cbn [fst snd] in *; [|discriminate].
  destruct (open_for_writing_error output_file); [discriminate|].
  intros [= <-]. exists (map_add_child
                           (root_html_add_child
                              (new_Map (VFloat "20.5937", VFloat "78.9629") 5
                                       "CartoDB positron") css) fg'), fg', text, data.
  subst fg'. repeat split; reflexivity.
Qed.

End PipelineClaims.

(** ** Two runs *)







(** C6. A boundary file that is there and holds a line of plain text, which
    is no geometry: folium takes the text for the name of a file, the opening
    of that file raises [FileNotFoundError] inside the [try], and the builder
    reports that the boundary file itself was not found, where a wrapped
    error of the failure was due; [main] prints that message and no map is
    written. *)
Theorem plain_text_boundary_reported_missing :
  fs Cases.start_plain_boundary !! "india_states.json" = Some "boundary goes here" /\
  @create_feature_group Cases.env "india_states.json" Cases.start_plain_boundary =
    (Raise (mk_exn FileNotFoundError "GeoJSON file not found at: india_states.json"),
     Cases.start_plain_boundary) /\
  stdout (@main Cases.env Cases.start_plain_boundary).2 =
    ["Error creating map: GeoJSON file not found at: india_states.json";
     nl +:+ "Please ensure:";
     "1. Your Excel file contains all required columns";
     "2. Image URLs are valid and accessible";
     "3. GeoJSON file exists and is valid"] /\
  fs (@main Cases.env Cases.start_plain_boundary).2 !! "final12.html" = None.
Proof. vm_compute. repeat split; reflexivity. Qed.

(** ** The pipeline on the sample data *)

Lemma workbook_errors_witness :
  @create_iit_map Sample.env "iit_data.xlsx" "india_states.json" "final12.html"
    Sample.start_no_workbook =
    (Raise (mk_exn FileNotFoundError "Excel file not found at: iit_data.xlsx"),
     Sample.start_no_workbook) /\
  @create_iit_map Cases.locked "iit_data.xlsx" "india_states.json" "final12.html"
    Sample.start_no_workbook =
    (Raise (mk_exn Exception_
              "Error reading Excel file: [Errno 13] Permission denied: 'iit_data.xlsx'"),
     Sample.start_no_workbook) /\
  @create_iit_map Sample.env "iit_data.xlsx" "india_states.json" "final12.html"
    Sample.start_bad_workbook =
    (Raise (mk_exn Exception_ "Error reading Excel file: File is not a zip file"),
     Sample.start_bad_workbook).
Proof.
  split; [|split].
  - apply (proj1 (@workbook_errors Sample.env "iit_data.xlsx" "india_states.json"
                    "final12.html" Sample.start_no_workbook)).
    + vm_compute. reflexivity.
    + reflexivity.
  - apply (proj1 (proj2 (@workbook_errors Cases.locked "iit_data.xlsx"
                           "india_states.json" "final12.html"
                           Sample.start_no_workbook))
                 (mk_exn PermissionError
                    "[Errno 13] Permission denied: 'iit_data.xlsx'")).
    + vm_compute. reflexivity.
    + reflexivity.
    + discriminate.
  - apply (proj2 (proj2 (@workbook_errors Sample.env "iit_data.xlsx"
                           "india_states.json" "final12.html"
                           Sample.start_bad_workbook))
                 "junk" (mk_exn ValueError "File is not a zip file")).
    + vm_compute. reflexivity.
    + vm_compute. reflexivity.
    + discriminate.
Defined.

Lemma boundary_errors_witness :
  @read_text_utf_8_sig Sample.env "india_states.json" Sample.start =
    (Ok Sample.boundary, Sample.start) /\
  @create_feature_group Sample.env "india_states.json" Sample.start_no_boundary =
    (Raise (mk_exn FileNotFoundError "GeoJSON file not found at: india_states.json"),
     Sample.start_no_boundary) /\
  @create_feature_group Sample.env "india_states.json" Sample.start_bad_boundary =
    (Raise (mk_exn Exception_
              "Error creating feature group: Expecting property name enclosed in double quotes: line 1 column 2 (char 1)"),
     Sample.start_bad_boundary) /\
  exists e',
    @create_iit_map Sample.env "iit_data.xlsx" "india_states.json" "final12.html"
      Sample.start_bad_boundary = (Raise e', Sample.start_bad_boundary) /\
    (forall data,
       (@load_iit_data Sample.env "iit_data.xlsx" Sample.start_bad_boundary).1 = Ok data ->
       e' = mk_exn Exception_
              "Error creating feature group: Expecting property name enclosed in double quotes: line 1 column 2 (char 1)").
Proof.
  pose proof (@boundary_errors Sample.env "iit_data.xlsx" "india_states.json"
                "final12.html" Sample.start) as (Hread & _).
  pose proof (@boundary_errors Sample.env "iit_data.xlsx" "india_states.json"
                "final12.html" Sample.start_no_boundary) as (_ & _ & _ & Hmissing & _).
  pose proof (@boundary_errors Sample.env "iit_data.xlsx" "india_states.json"
                "final12.html" Sample.start_bad_boundary) as (_ & _ & _ & _ & Hbad & Habort).
  split.
  { rewrite (Hread (BOM +:+ Sample.boundary)); [|vm_compute; reflexivity].
    vm_compute. reflexivity. }
  split.
  { apply Hmissing; [vm_compute; reflexivity|reflexivity]. }
  assert (Hg : @create_feature_group Sample.env "india_states.json"
                 Sample.start_bad_boundary =
               (Raise (mk_exn Exception_
                  "Error creating feature group: Expecting property name enclosed in double quotes: line 1 column 2 (char 1)"),
                Sample.start_bad_boundary)).
  { apply (Hbad "{not a geometry" "{not a geometry"
             (mk_exn ValueError
                "Expecting property name enclosed in double quotes: line 1 column 2 (char 1)")).
    - vm_compute. reflexivity.
    - right. split; vm_compute; reflexivity.
    - discriminate. }
  split; [exact Hg|].
  exact (Habort _ _ Hg).
Defined.


Lemma one_group_holds_all_witness :
  exists map_obj fg text data,
    fs (@create_iit_map Sample.env "iit_data.xlsx" "india_states.json" "final12.html"
          Sample.start).2 =
      <["final12.html" := @render Sample.env map_obj]> (fs Sample.start) /\
    root_html map_obj = [css] /\
    map_children map_obj = [fg] /\
    fg_children fg = GeoJson text :: map MarkerLayer (@composed Sample.env data) /\
    (@load_iit_data Sample.env "iit_data.xlsx" Sample.start).1 = Ok data /\
    (@read_text_utf_8_sig Sample.env "india_states.json" Sample.start).1 = Ok text.
Proof.
  apply (@one_group_holds_all Sample.env "iit_data.xlsx" "india_states.json"
           "final12.html" Sample.start).
  vm_compute. reflexivity.
Defined.

(** * Further properties of the code *)

(** ** The image source in the popup *)

Section QuoteAlphabet.

Import Urllib.

Lemma list_ascii_of_string_app (a b : string) :
  list_ascii_of_string (a +:+ b) =
  (list_ascii_of_string a ++ list_ascii_of_string b)%list.
Proof.
  induction a as [|x a IH]; [reflexivity|].
  rewrite append_cons. cbn [list_ascii_of_string]. now rewrite IH.
Qed.

Lemma mem_app (c : ascii) (a b : string) :
  mem c (a +:+ b) = mem c a || mem c b.
Proof.
  induction a as [|x a IH]; [reflexivity|].
  rewrite append_cons. cbn [mem]. now destruct (Ascii.eqb c x).
Qed.

Lemma mem_elem_of (c : ascii) (s : string) :
  mem c s = true <-> c ∈ list_ascii_of_string s.
Proof.
  induction s as [|x s IH]; cbn [mem list_ascii_of_string].
  - split; [discriminate|]. intros H. inversion H.
  - destruct (Ascii.eqb c x) eqn:Hcx.
    + apply Ascii.eqb_eq in Hcx. subst x. split; [intros _; apply list_elem_of_here|trivial].
    + rewrite IH. split; [apply list_elem_of_further|].
      intros H. inversion H; subst; [|assumption].
      rewrite Ascii.eqb_refl in Hcx. discriminate.
Qed.

Lemma all_in_app (allowed a b : string) :
  all_in allowed a -> all_in allowed b -> all_in allowed (a +:+ b).
Proof.
  unfold all_in. intros Ha Hb. rewrite list_ascii_of_string_app.
  now apply Forall_app.
Qed.

Lemma percent_alphabet (b : ascii) :
  all_in (ALWAYS_SAFE +:+ ":/?=" +:+ "%") (percent b).
Proof.
  destruct b as [[] [] [] [] [] [] [] []];
    repeat constructor.
Qed.

Lemma quoter_alphabet (b : ascii) :
  all_in (ALWAYS_SAFE +:+ ":/?=" +:+ "%") (quoter ":/?=" b).
Proof.
  unfold quoter. destruct (mem b (ALWAYS_SAFE +:+ ":/?=")) eqn:Hb.
  - repeat constructor.
    change (ALWAYS_SAFE +:+ ":/?=" +:+ "%") with ((ALWAYS_SAFE +:+ ":/?=") +:+ "%").
    rewrite mem_app, Hb. reflexivity.
  - apply percent_alphabet.
Qed.

Lemma quote_alphabet (s : string) :
  all_in (ALWAYS_SAFE +:+ ":/?=" +:+ "%") (quote s ":/?=").
Proof.
  induction s as [|b s IH]; [constructor|].
  cbn [quote]. apply all_in_app; [apply quoter_alphabet|exact IH].
Qed.

Lemma all_in_excludes (allowed s : string) (c : ascii) :
  all_in allowed s -> mem c allowed = false -> mem c s = false.
Proof.
  intros Hall Hc. destruct (mem c s) eqn:Hs; [|reflexivity].
  apply mem_elem_of in Hs. unfold all_in in Hall. rewrite Forall_forall in Hall.
  rewrite (Hall c Hs) in Hc. discriminate.
Qed.

End QuoteAlphabet.

(** X1. In every popup that is built, the source of the image element is
    made of letters, digits and the characters [_ . - ~ : / ? = %] only,
    whatever the Image cell holds: it holds no double or single quote, no
    angle bracket, no ampersand and no space, so it cannot close the
    attribute it stands in. *)
Theorem popup_image_source_is_inert (row : Series) (h : string) :
  create_popup_html row = Ok h ->
  exists image,
    getitem row "Image" = Ok image /\
    occurs_in ("<img src=" +:+ dq +:+ Urllib.quote (str image) ":/?=" +:+ dq) h /\
    all_in (Urllib.ALWAYS_SAFE +:+ ":/?=" +:+ "%") (Urllib.quote (str image) ":/?=") /\
    Forall (fun c => Urllib.mem c (Urllib.quote (str image) ":/?=") = false)
           (list_ascii_of_string (dq +:+ "'<>& ")).
Proof.
  intros H.
  destruct (create_popup_html_Ok row h H)
    as (image & college & ranking & score & Hi & _ & _ & _ & ->).
  exists image. split; [exact Hi|]. split; [apply occurs_in_popup_src|].
  split; [apply quote_alphabet|].
  repeat constructor;
    apply (all_in_excludes _ _ _ (quote_alphabet (str image))); reflexivity.
Qed.

Lemma popup_image_source_is_inert_witness :
  exists image,
    getitem (mk_Series Sample.header Sample.madras) "Image" = Ok image /\
    occurs_in ("<img src=" +:+ dq +:+ Urllib.quote (str image) ":/?=" +:+ dq)
      (popup_fstring "IIT Madras" "1" "89.46" "http://x/a%20b.png") /\
    all_in (Urllib.ALWAYS_SAFE +:+ ":/?=" +:+ "%") (Urllib.quote (str image) ":/?=") /\
    Forall (fun c => Urllib.mem c (Urllib.quote (str image) ":/?=") = false)
           (list_ascii_of_string (dq +:+ "'<>& ")).
Proof.
  apply (popup_image_source_is_inert (mk_Series Sample.header Sample.madras)).
  reflexivity.
Defined.

Lemma quote_clean (s : string) :
  all_in (Urllib.ALWAYS_SAFE +:+ ":/?=") s -> Urllib.quote s ":/?=" = s.
Proof.
  unfold all_in. induction s as [|b s IH]; [reflexivity|].
  cbn [list_ascii_of_string Urllib.quote]. intros Hall.
  apply Forall_cons in Hall as [Hb Hs].
  unfold Urllib.quoter. rewrite Hb, append_cons, (IH Hs). reflexivity.
Qed.

(** X2. When the text of the Image cell is made of letters, digits and the
    characters [_ . - ~ : / ? =] only, the popup that is built holds it as it
    is, as the source of the image element. *)
Theorem clean_reference_is_kept (row : Series) (image : value) (h : string) :
  create_popup_html row = Ok h ->
  getitem row "Image" = Ok image ->
  all_in (Urllib.ALWAYS_SAFE +:+ ":/?=") (str image) ->
  occurs_in ("<img src=" +:+ dq +:+ str image +:+ dq) h.
Proof.
  intros H Hi Hclean.
  destruct (create_popup_html_Ok row h H)
    as (image' & college & ranking & score & Hi' & _ & _ & _ & ->).
  rewrite Hi in Hi'. injection Hi' as <-.
  rewrite (quote_clean _ Hclean). apply occurs_in_popup_src.
Qed.

Lemma clean_reference_is_kept_witness :
  occurs_in ("<img src=" +:+ dq +:+ "http://x/n.png" +:+ dq)
    (popup_fstring "IIT Nowhere" "3" "1.5" "http://x/n.png").
Proof.
  apply (clean_reference_is_kept (mk_Series Sample.header Sample.nowhere)
           (VStr "http://x/n.png")).
  - reflexivity.
  - reflexivity.
  - repeat constructor.
Defined.

Lemma quote_app (a b : string) :
  Urllib.quote (a +:+ b) ":/?=" = Urllib.quote a ":/?=" +:+ Urllib.quote b ":/?=".
Proof.
  induction a as [|x a IH]; [reflexivity|].
  rewrite append_cons. cbn [Urllib.quote]. now rewrite IH, append_assoc.
Qed.

(** X3. The encoding goes byte by byte, so the encoding of a text in two
    parts is the two encodings put together; a percent sign is itself
    encoded, as [%25], so a reference that is percent-encoded already is
    encoded a second time: [a%20b] is written [a%2520b]. *)
Theorem quote_encodes_again (a b : string) :
  Urllib.quote (a +:+ "%" +:+ b) ":/?=" =
    Urllib.quote a ":/?=" +:+ "%25" +:+ Urllib.quote b ":/?=" /\
  Urllib.quote "a%20b" ":/?=" = "a%2520b".
Proof.
  split; [|reflexivity].
  rewrite quote_app. reflexivity.
Qed.

(** ** The loop of [add_iit_markers], row by row *)

Section Loop.

Context `{E : Env}.

Lemma getitem_Ok_is_Some (row : Series) (key : string) (v : value) :
  getitem row key = Ok v -> is_Some (get_loc key (index row)).
Proof.
  unfold getitem. destruct (get_loc key (index row)); [eauto|discriminate].
Qed.

(** A row that has a name gives a marker or a line, never both, never none. *)
Lemma marker_or_diagnostic (row : Series) :
  is_Some (get_loc "IIT College" (index row)) ->
  (List.length (option_list (marker_of row)) +
   List.length (option_list (diagnostic_of row)) = 1)%nat.
Proof.
  intros Hn. destruct (getitem_is_Some _ _ Hn) as [college Hc].
  unfold marker_of, diagnostic_of. rewrite Hc.
  now destruct (compose_marker row).
Qed.

Lemma add_iit_marker_report (row : Series) (fg : FeatureGroup) (out : list string) :
  is_Some (get_loc "IIT College" (index row)) ->
  add_iit_marker row fg out =
    (Ok tt,
     mk_FeatureGroup (fg_name fg)
       (fg_children fg ++ map MarkerLayer (option_list (marker_of row))),
     (out ++ option_list (diagnostic_of row))%list).
Proof.
  intros Hn. destruct (getitem_is_Some _ _ Hn) as [college Hc].
  unfold add_iit_marker, marker_of, diagnostic_of. rewrite Hc.
  destruct (compose_marker row) as [m|e]; simpl; rewrite ?app_nil_r.
  - reflexivity.
  - now destruct fg.
Qed.

Lemma diagnostics_cons (row : Series) (rs : list Series) :
  (option_list (diagnostic_of row) ++ omap diagnostic_of rs)%list =
  omap diagnostic_of (row :: rs).
Proof. simpl. destruct (diagnostic_of row); reflexivity. Qed.

Lemma markers_cons (row : Series) (rs : list Series) :
  (option_list (marker_of row) ++ omap marker_of rs)%list =
  omap marker_of (row :: rs).
Proof. simpl. destruct (marker_of row); reflexivity. Qed.

Lemma add_iit_markers_rows_report (rs : list Series) :
  Forall (fun row => is_Some (get_loc "IIT College" (index row))) rs ->
  forall fg out,
    add_iit_markers_rows rs fg out =
      (Ok tt,
       mk_FeatureGroup (fg_name fg)
         (fg_children fg ++ map MarkerLayer (omap marker_of rs)),
       (out ++ omap diagnostic_of rs)%list) /\
    (List.length (omap marker_of rs) + List.length (omap diagnostic_of rs) =
     List.length rs)%nat.
Proof.
  induction 1 as [|row rs Hrow _ IH]; intros fg out.
  - split; [|reflexivity]. simpl. rewrite !app_nil_r. now destruct fg.
  - cbn [add_iit_markers_rows]. rewrite (add_iit_marker_report row fg out Hrow).
    destruct (IH (mk_FeatureGroup (fg_name fg)
                    (fg_children fg ++ map MarkerLayer (option_list (marker_of row))))
                 (out ++ option_list (diagnostic_of row))%list) as [Hrun Hcount].
    split.
    + rewrite Hrun. cbn [fg_name fg_children].
      now rewrite <- !app_assoc, layers_cons, diagnostics_cons.
    + pose proof (marker_or_diagnostic row Hrow) as Hone.
      rewrite <- markers_cons, <- diagnostics_cons.
      rewrite !length_app.
      change (List.length (row :: rs)) with (S (List.length rs)). lia.
Qed.

End Loop.

Section LoopProperties.

Context `{E : Env}.

Lemma add_iit_markers_named_report (fg : FeatureGroup) (data : DataFrame)
      (out : list string) :
  is_Some (get_loc "IIT College" (columns data)) ->
  add_iit_markers fg data out =
    (Ok tt,
     mk_FeatureGroup (fg_name fg) (fg_children fg ++ map MarkerLayer (composed data)),
     (out ++ diagnostics data)%list) /\
  (List.length (composed data) + List.length (diagnostics data) =
   List.length (rows data))%nat.
Proof.
  intros Hn. unfold add_iit_markers, composed, diagnostics.
  destruct (add_iit_markers_rows_report (iterrows data)) with (fg := fg) (out := out)
    as [Hrun Hcount].
  { apply (Forall_iterrows (fun cols => is_Some (get_loc "IIT College" cols))), Hn. }
  split; [exact Hrun|]. rewrite Hcount. unfold iterrows. apply length_map.
Qed.

(** X4. Over a table whose sheet has a name column the loop returns, whatever
    the rows hold; it adds the markers of the rows that compose and prints,
    in row order, one line for each row that does not, so that markers and
    lines together are as many as the rows. *)
Theorem add_iit_markers_report (fg : FeatureGroup) (data : DataFrame) (out : list string) :
  is_Some (get_loc "IIT College" (columns data)) ->
  add_iit_markers fg data out =
    (Ok tt,
     mk_FeatureGroup (fg_name fg) (fg_children fg ++ map MarkerLayer (composed data)),
     (out ++ diagnostics data)%list) /\
  (List.length (composed data) + List.length (diagnostics data) =
   List.length (rows data))%nat.
Proof.
  intros Hn.
  assert (Hall : Forall (fun row => is_Some (get_loc "IIT College" (index row)))
                        (iterrows data))
    by apply (Forall_iterrows (fun cols => is_Some (get_loc "IIT College" cols))), Hn.
  destruct (add_iit_markers_rows_report (iterrows data) Hall fg out) as [Hrun Hcount].
  split.
  - exact Hrun.
  - unfold composed, diagnostics. rewrite Hcount. unfold iterrows. apply length_map.
Qed.

Lemma add_iit_markers_rows_app (rs1 rs2 : list Series) :
  forall (fg : FeatureGroup) (out : list string),
    add_iit_markers_rows (rs1 ++ rs2) fg out =
      match add_iit_markers_rows rs1 fg out with
      | (Ok _, fg1, out1) => add_iit_markers_rows rs2 fg1 out1
      | (Raise e, fg1, out1) => (Raise e, fg1, out1)
      end.
Proof.
  induction rs1 as [|row rs1 IH]; intros fg out; [reflexivity|].
  cbn [app add_iit_markers_rows].
  destruct (add_iit_marker row fg out) as [[[[]|e] fg1] out1]; [apply IH|reflexivity].
Qed.

(** X5. Composing the markers of a table is composing those of its first rows
    and then, if that returned, those of the rest, on the feature group and
    the output the first part left. *)
Theorem add_iit_markers_in_batches (cols : list string) (rows1 rows2 : list (list value))
        (fg : FeatureGroup) (out : list string) :
  add_iit_markers fg (mk_DataFrame cols (rows1 ++ rows2)) out =
    match add_iit_markers fg (mk_DataFrame cols rows1) out with
    | (Ok _, fg1, out1) => add_iit_markers fg1 (mk_DataFrame cols rows2) out1
    | (Raise e, fg1, out1) => (Raise e, fg1, out1)
    end.
Proof.
  unfold add_iit_markers, iterrows. cbn [columns rows].
  rewrite map_app. apply add_iit_markers_rows_app.
Qed.

Lemma omap_app_middle {A B} (f : A -> option B) (l1 l2 : list A) (x : A) :
  omap f (l1 ++ x :: l2)%list = (omap f l1 ++ option_list (f x) ++ omap f l2)%list.
Proof.
  induction l1 as [|y l1 IH].
  - simpl. now destruct (f x).
  - change (omap f ((y :: l1) ++ x :: l2)%list)
      with (match f y with
            | Some z => z :: omap f (l1 ++ x :: l2)%list
            | None => omap f (l1 ++ x :: l2)%list
            end).
    change (omap f (y :: l1))
      with (match f y with Some z => z :: omap f l1 | None => omap f l1 end).
    rewrite IH. now destruct (f y).
Qed.

Lemma omap_app_plain {A B} (f : A -> option B) (l1 l2 : list A) :
  omap f (l1 ++ l2)%list = (omap f l1 ++ omap f l2)%list.
Proof.
  induction l1 as [|y l1 IH]; [reflexivity|].
  change (omap f ((y :: l1) ++ l2)%list)
    with (match f y with
          | Some z => z :: omap f (l1 ++ l2)%list
          | None => omap f (l1 ++ l2)%list
          end).
  change (omap f (y :: l1))
    with (match f y with Some z => z :: omap f l1 | None => omap f l1 end).
  rewrite IH. now destruct (f y).
Qed.

(** X6. In a table with a name column, a row whose marker fails changes the
    marker of no other row: with the row or without it the loop returns the
    same feature group, and the row costs one printed line, in its place. *)
Theorem failing_row_changes_no_marker (cols : list string)
        (rows1 rows2 : list (list value)) (bad : list value)
        (fg : FeatureGroup) (out : list string) :
  is_Some (get_loc "IIT College" cols) ->
  marker_of (mk_Series cols bad) = None ->
  (add_iit_markers fg (mk_DataFrame cols (rows1 ++ bad :: rows2)) out).1 =
    (add_iit_markers fg (mk_DataFrame cols (rows1 ++ rows2)) out).1 /\
  exists line,
    diagnostic_of (mk_Series cols bad) = Some line /\
    diagnostics (mk_DataFrame cols (rows1 ++ bad :: rows2)) =
      (diagnostics (mk_DataFrame cols rows1) ++
       line :: diagnostics (mk_DataFrame cols rows2))%list.
Proof.
  intros Hn Hbad.
  destruct (add_iit_markers_named_report fg
              (mk_DataFrame cols (rows1 ++ bad :: rows2)) out Hn) as [H1 _].
  destruct (add_iit_markers_named_report fg
              (mk_DataFrame cols (rows1 ++ rows2)) out Hn) as [H2 _].
  rewrite H1, H2. cbn [fst]. split.
  - unfold composed, iterrows. cbn [columns rows].
    rewrite !map_app, map_cons, omap_app_middle, omap_app_plain, Hbad.
    reflexivity.
  - pose proof (marker_or_diagnostic (mk_Series cols bad) Hn) as Hone.
    rewrite Hbad in Hone.
    destruct (diagnostic_of (mk_Series cols bad)) as [line|] eqn:Hd; [|discriminate].
    exists line. split; [reflexivity|].
    unfold diagnostics, iterrows. cbn [columns rows].
    now rewrite !map_app, map_cons, omap_app_middle, Hd.
Qed.

Lemma marker_has_columns (row : Series) :
  is_Some (marker_of row) ->
  Forall (fun key => is_Some (get_loc key (index row))) required_columns /\
  exists lat lon,
    getitem row "Latitude" = Ok lat /\
    getitem row "Longitude" = Ok lon /\
    validate_location lat lon = None.
Proof.
  intros [m Hm]. unfold marker_of in Hm.
  destruct (compose_marker row) as [m'|] eqn:Hc; [|discriminate].
  destruct (compose_marker_Ok _ _ Hc) as (h & lat & lon & Hh & Hlat & Hlon & Hv & _).
  destruct (create_popup_html_Ok _ _ Hh)
    as (image & college & ranking & score & Hi & Hco & Hr & Hs & _).
  split; [|now exists lat, lon].
  repeat constructor; eauto using getitem_Ok_is_Some.
Qed.

(** X7. A row gets a marker exactly when it has the six fields and the marker
    accepts its latitude and longitude cells as a location. *)
Theorem marker_iff (row : Series) :
  is_Some (marker_of row) <->
  Forall (fun key => is_Some (get_loc key (index row))) required_columns /\
  exists lat lon,
    getitem row "Latitude" = Ok lat /\
    getitem row "Longitude" = Ok lon /\
    validate_location lat lon = None.
Proof.
  split; [apply marker_has_columns|].
  intros [Hcols (lat & lon & Hlat & Hlon & Hv)].
  apply complete_row; [exact Hcols|].
  intros lat' lon' Hlat' Hlon'.
  rewrite Hlat in Hlat'. rewrite Hlon in Hlon'.
  injection Hlat' as <-. injection Hlon' as <-. exact Hv.
Qed.

Lemma composed_contents (rs : list Series) :
  Forall2 (fun row m =>
             create_popup_html row = Ok (html (popup m)) /\
             max_width (popup m) = 300 /\
             icon m = mk_Icon "red" "university" "fa")
          (filter (fun row => is_Some (marker_of row)) rs)
          (omap marker_of rs).
Proof.
  induction rs as [|row rs IH]; [constructor|].
  rewrite filter_cons. simpl.
  destruct (decide (is_Some (marker_of row))) as [[m Hm]|Hno].
  - rewrite Hm. constructor; [|exact IH].
    unfold marker_of in Hm. destruct (compose_marker row) as [m'|] eqn:Hc; [|discriminate].
    injection Hm as ->.
    destruct (compose_marker_Ok _ _ Hc) as (h & lat & lon & Hh & _ & _ & _ & ->).
    now repeat split.
  - destruct (marker_of row) as [m|]; [|exact IH].
    exfalso. apply Hno. eauto.
Qed.

(** X8. Every marker the composer makes carries the popup built from its own
    row, 300 wide, and the same icon: the red [university] glyph of the [fa]
    set. *)
Theorem markers_carry_their_popup (data : DataFrame) :
  Forall2 (fun row m =>
             create_popup_html row = Ok (html (popup m)) /\
             max_width (popup m) = 300 /\
             icon m = mk_Icon "red" "university" "fa")
          (composable data) (composed data).
Proof. apply composed_contents. Qed.

(** X9. Over a table whose sheet has no name column the loop raises
    [KeyError] for the name at its first row, having added no marker and
    printed nothing; only a table without rows gets through. *)
Theorem nameless_sheet_stops_loop (fg : FeatureGroup) (data : DataFrame)
        (out : list string) :
  get_loc "IIT College" (columns data) = None ->
  add_iit_markers fg data out =
    (match rows data with
     | [] => Ok tt
     | _ :: _ => Raise (mk_exn KeyError "'IIT College'")
     end, fg, out).
Proof. intros Hn. now destruct (add_iit_markers_nameless fg data out Hn). Qed.

Lemma marker_needs_columns (row : Series) (key : string) :
  key ∈ required_columns -> get_loc key (index row) = None -> marker_of row = None.
Proof.
  intros Hkey Hnone. destruct (marker_of row) as [m|] eqn:Hm; [|reflexivity].
  assert (Hsome : is_Some (marker_of row)) by eauto.
  apply marker_has_columns in Hsome as [Hcols _].
  rewrite Forall_forall in Hcols. specialize (Hcols key Hkey).
  rewrite Hnone in Hcols. now destruct Hcols.
Qed.

(** X10. When the sheet has a name column but lacks another of the columns
    the program reads, no row gets a marker: the loop returns with the
    feature group as it was and one printed line for every row. *)
Theorem missing_column_skips_every_row (fg : FeatureGroup) (data : DataFrame)
        (out : list string) (key : string) :
  is_Some (get_loc "IIT College" (columns data)) ->
  key ∈ required_columns ->
  get_loc key (columns data) = None ->
  add_iit_markers fg data out = (Ok tt, fg, (out ++ diagnostics data)%list) /\
  List.length (diagnostics data) = List.length (rows data).
Proof.
  intros Hn Hkey Hnone.
  assert (Hnil : composed data = []).
  { unfold composed, iterrows. induction (rows data) as [|cells l IH]; [reflexivity|].
    simpl. rewrite (marker_needs_columns (mk_Series (columns data) cells) key Hkey Hnone).
    exact IH. }
  destruct (add_iit_markers_named_report fg data out Hn) as [Hrun Hcount].
  rewrite Hnil in Hrun, Hcount. split; [|exact Hcount].
  rewrite Hrun. simpl. rewrite app_nil_r. now destruct fg.
Qed.

End LoopProperties.

Lemma add_iit_markers_report_witness :
  @add_iit_markers Sample.env (mk_FeatureGroup "map" []) Sample.table_with_gap [] =
    (Ok tt,
     mk_FeatureGroup "map" ([] ++ map MarkerLayer (@composed Sample.env Sample.table_with_gap)),
     ([] ++ @diagnostics Sample.env Sample.table_with_gap)%list) /\
  (List.length (@composed Sample.env Sample.table_with_gap) +
   List.length (@diagnostics Sample.env Sample.table_with_gap) = 3)%nat.
Proof.
  apply (@add_iit_markers_report Sample.env (mk_FeatureGroup "map" [])
           Sample.table_with_gap []).
  eexists. reflexivity.
Defined.

Lemma failing_row_changes_no_marker_witness :
  (@add_iit_markers Sample.env (mk_FeatureGroup "map" []) Sample.table_with_gap []).1 =
    (@add_iit_markers Sample.env (mk_FeatureGroup "map" []) Sample.table []).1 /\
  exists line,
    @diagnostic_of Sample.env (mk_Series Sample.header Sample.nowhere) = Some line /\
    @diagnostics Sample.env Sample.table_with_gap =
      (@diagnostics Sample.env (mk_DataFrame Sample.header [Sample.madras]) ++
       line :: @diagnostics Sample.env (mk_DataFrame Sample.header [Sample.delhi]))%list.
Proof.
  apply (@failing_row_changes_no_marker Sample.env Sample.header
           [Sample.madras] [Sample.delhi] Sample.nowhere (mk_FeatureGroup "map" []) []).
  - eexists. reflexivity.
  - vm_compute. reflexivity.
Defined.

Lemma marker_iff_witness :
  is_Some (@marker_of Sample.env (mk_Series Sample.header Sample.madras)) /\
  ~ is_Some (@marker_of Sample.env (mk_Series Sample.header Sample.nowhere)).
Proof.
  split.
  - apply (proj2 (@marker_iff Sample.env (mk_Series Sample.header Sample.madras))).
    split.
    + repeat constructor; eexists; reflexivity.
    + exists (VFloat "12.9915"), (VFloat "80.2337"). repeat split; reflexivity.
  - intros Hm.
    apply (proj1 (@marker_iff Sample.env (mk_Series Sample.header Sample.nowhere))) in Hm.
    destruct Hm as (_ & lat & lon & Hlat & Hlon & Hv).
    vm_compute in Hlat, Hlon. injection Hlat as <-. injection Hlon as <-.
    vm_compute in Hv. discriminate.
Defined.

Lemma nameless_sheet_stops_loop_witness :
  @add_iit_markers Sample.env (mk_FeatureGroup "map" []) Sample.nameless [] =
    (Raise (mk_exn KeyError "'IIT College'"), mk_FeatureGroup "map" [], []).
Proof.
  apply (@nameless_sheet_stops_loop Sample.env (mk_FeatureGroup "map" [])
           Sample.nameless []).
  reflexivity.
Defined.

Lemma missing_column_skips_every_row_witness :
  @add_iit_markers Cases.env (mk_FeatureGroup "map" []) Cases.coordless [] =
    (Ok tt, mk_FeatureGroup "map" [],
     ([] ++ @diagnostics Cases.env Cases.coordless)%list) /\
  List.length (@diagnostics Cases.env Cases.coordless) = 2%nat.
Proof.
  apply (@missing_column_skips_every_row Cases.env (mk_FeatureGroup "map" [])
           Cases.coordless [] "Latitude").
  - eexists. reflexivity.
  - unfold required_columns. in_list.
  - reflexivity.
Defined.

(** ** The two readers *)

Section Readers.

Context `{E : Env}.

(** X11. The loader changes nothing in the world.  It returns the table the
    parser made of the bytes of the file, or raises one of two exceptions
    only: [FileNotFoundError] with its own message naming the path, or a plain
    [Exception] whose message wraps that of the failure, be it of the opening
    or of the parser. *)
Theorem load_iit_data_outcomes (file_path : string) (s : State) :
  (load_iit_data file_path s).2 = s /\
  match (load_iit_data file_path s).1 with
  | Ok data =>
      exists bytes, fs s !! file_path = Some bytes /\ parse_excel bytes = Ok data
  | Raise e =>
      e = mk_exn FileNotFoundError ("Excel file not found at: " +:+ file_path) \/
      exists e0,
        (open_for_reading_error file_path = Some e0 \/
         exists bytes,
           fs s !! file_path = Some bytes /\ parse_excel bytes = Raise e0) /\
        e = mk_exn Exception_ ("Error reading Excel file: " +:+ exn_str e0)
  end.
Proof.
  split; [apply load_iit_data_state|].
  destruct (fs s !! file_path) as [bytes|] eqn:Hf.
  - rewrite (load_iit_data_parsed _ _ _ Hf). cbn [fst].
    destruct (parse_excel bytes) as [data|e0] eqn:Hp; [eauto|].
    destruct (is_FileNotFoundError e0); [now left|].
    right. exists e0. split; [right; now exists bytes|reflexivity].
  - destruct (open_for_reading_error file_path) as [e0|] eqn:Ho.
    + rewrite (load_iit_data_unreadable _ _ _ Hf Ho). cbn [fst].
      destruct (is_FileNotFoundError e0); [now left|].
      right. exists e0. split; [now left|reflexivity].
    + rewrite (load_iit_data_missing _ _ Hf Ho). now left.
Qed.

(** X12. The boundary builder changes nothing in the world.  It returns a
    feature group named [map] whose only child is the boundary layer made of
    the text of the file, or raises one of two exceptions only:
    [FileNotFoundError] with its own message naming the path, or a plain
    [Exception] whose message wraps that of the failure. *)
Theorem create_feature_group_outcomes (geojson_path : string) (s : State) :
  (create_feature_group geojson_path s).2 = s /\
  match (create_feature_group geojson_path s).1 with
  | Ok fg =>
      exists text,
        (read_text_utf_8_sig geojson_path s).1 = Ok text /\
        GeoJson_error text = None /\
        fg = mk_FeatureGroup "map" [GeoJson text]
  | Raise e =>
      e = mk_exn FileNotFoundError ("GeoJSON file not found at: " +:+ geojson_path) \/
      exists e0, e = mk_exn Exception_ ("Error creating feature group: " +:+ exn_str e0)
  end.
Proof.
  split; [apply create_feature_group_state|].
  rewrite create_feature_group_unfold. cbn [fst].
  destruct (read_text_utf_8_sig geojson_path s).1 as [text|e0].
  - destruct (GeoJson_error text) as [e0|] eqn:Hg.
    + destruct (is_FileNotFoundError e0); [now left|right; now exists e0].
    + now exists text.
  - destruct (is_FileNotFoundError e0); [now left|right; now exists e0].
Qed.

Lemma strip_bom_mark (bytes : string) : strip_bom (BOM +:+ bytes) = bytes.
Proof.
  unfold strip_bom.
  assert (Hp : String.prefix BOM (BOM +:+ bytes) = true)
    by (destruct bytes; reflexivity).
  rewrite Hp.
  change (BOM +:+ bytes)
    with (String (ascii_of_nat 239)
            (String (ascii_of_nat 187) (String (ascii_of_nat 191) bytes))).
  cbn [String.length Nat.sub String.substring]. rewrite Nat.sub_0_r.
  clear Hp. induction bytes as [|c bytes IH]; [reflexivity|].
  cbn [String.length String.substring]. now rewrite IH.
Qed.

Lemma strip_bom_plain (bytes : string) :
  String.prefix BOM bytes = false -> strip_bom bytes = bytes.
Proof. intros Hp. unfold strip_bom. now rewrite Hp. Qed.

(** X13. A byte-order mark at the head of the boundary file makes no
    difference: the file with the mark and the file without it give the same
    feature group, or the same exception. *)
Theorem bom_makes_no_difference (geojson_path bytes : string) (s1 s2 : State) :
  fs s1 !! geojson_path = Some (BOM +:+ bytes) ->
  fs s2 !! geojson_path = Some bytes ->
  String.prefix BOM bytes = false ->
  (create_feature_group geojson_path s1).1 = (create_feature_group geojson_path s2).1.
Proof.
  intros H1 H2 Hp. rewrite !create_feature_group_unfold. cbn [fst].
  rewrite (read_text_utf_8_sig_found _ _ _ H1), (read_text_utf_8_sig_found _ _ _ H2).
  cbn [fst].
  now rewrite strip_bom_mark, (strip_bom_plain _ Hp).
Qed.

(** X14. A [FileNotFoundError] raised by the boundary constructor itself, on
    the text of a file that is there, is reported like a missing file: the
    builder raises [FileNotFoundError] with the message that the boundary
    file was not found. *)
Theorem constructor_error_reported_as_missing_file
        (geojson_path bytes text : string) (e : exn) (s : State) :
  fs s !! geojson_path = Some bytes ->
  utf_8_decode (strip_bom bytes) = Ok text ->
  GeoJson_error (universal_newlines text) = Some e ->
  exn_cls e = FileNotFoundError ->
  create_feature_group geojson_path s =
    (Raise (mk_exn FileNotFoundError ("GeoJSON file not found at: " +:+ geojson_path)), s).
Proof.
  intros Hf Hd Hg He. rewrite create_feature_group_unfold.
  rewrite (read_text_utf_8_sig_found _ _ _ Hf), Hd. cbn [fst rbind]. rewrite Hg.
  unfold is_FileNotFoundError. now rewrite bool_decide_eq_true_2.
Qed.

End Readers.

Lemma bom_makes_no_difference_witness :
  (@create_feature_group Sample.env "india_states.json" Sample.start).1 =
  (@create_feature_group Sample.env "india_states.json" Cases.start_no_bom).1.
Proof.
  apply (@bom_makes_no_difference Sample.env "india_states.json" Sample.boundary);
    vm_compute; reflexivity.
Defined.

Lemma constructor_error_reported_as_missing_file_witness :
  @create_feature_group Cases.env "india_states.json" Cases.start_plain_boundary =
    (Raise (mk_exn FileNotFoundError "GeoJSON file not found at: india_states.json"),
     Cases.start_plain_boundary).
Proof.
  apply (@constructor_error_reported_as_missing_file Cases.env "india_states.json"
           "boundary goes here" "boundary goes here"
           (mk_exn FileNotFoundError
              "[Errno 2] No such file or directory: 'boundary goes here'"));
    vm_compute; reflexivity.
Defined.

(** ** The run as a whole *)

Section Run.

Context `{E : Env}.

(** X15. A run touches one file at most, the output file, and only when it
    returns: every other path holds after the run what it held before, a run
    that raises leaves every file as it was, and what was printed before the
    run is still there, with the lines of the run after it. *)
Theorem create_iit_map_frame (data_file geojson_file output_file : string) (s : State) :
  (forall path, path <> output_file ->
     fs (create_iit_map data_file geojson_file output_file s).2 !! path = fs s !! path) /\
  (forall e, (create_iit_map data_file geojson_file output_file s).1 = Raise e ->
     fs (create_iit_map data_file geojson_file output_file s).2 = fs s) /\
  (exists lines,
     stdout (create_iit_map data_file geojson_file output_file s).2 =
       (stdout s ++ lines)%list).
Proof.
  rewrite create_iit_map_unfold.
  destruct (load_iit_data data_file s).1 as [data|e0].
  2:{ cbn [fst snd]. repeat split; try reflexivity. exists []. now rewrite app_nil_r. }
  destruct (create_feature_group geojson_file s).1 as [fg|e0].
  2:{ cbn [fst snd]. repeat split; try reflexivity. exists []. now rewrite app_nil_r. }
  cbv zeta. destruct (add_iit_markers fg data []) as [[[[]|e0] fg'] lines]; cbn [fst snd].
  2:{ repeat split; try reflexivity. now exists lines. }
  destruct (open_for_writing_error output_file) as [e0|]; cbn [fst snd fs stdout].
  { repeat split; try reflexivity. now exists lines. }
  split; [|split].
  - intros path Hne. now apply lookup_insert_ne.
  - discriminate.
  - now exists lines.
Qed.

Lemma create_iit_map_loaded (data_file geojson_file output_file bytes : string)
      (data : DataFrame) (fg : FeatureGroup) (s : State) :
  fs s !! data_file = Some bytes ->
  parse_excel bytes = Ok data ->
  is_Some (get_loc "IIT College" (columns data)) ->
  (create_feature_group geojson_file s).1 = Ok fg ->
  create_iit_map data_file geojson_file output_file s =
    match open_for_writing_error output_file with
    | Some e => (Raise e, mk_State (fs s) (stdout s ++ diagnostics data))
    | None =>
        (Ok tt,
         mk_State
           (<[output_file :=
                render (map_of (mk_FeatureGroup (fg_name fg)
                                  (fg_children fg ++ map MarkerLayer (composed data))))]>
              (fs s))
           (stdout s ++ diagnostics data))
    end.
Proof.
  intros Hf Hp Hn Hg. rewrite create_iit_map_unfold.
  rewrite (load_iit_data_parsed _ _ _ Hf), Hp, Hg. cbn [fst]. cbv zeta.
  destruct (add_iit_markers_named_report fg data [] Hn) as [Hrun _].
  rewrite Hrun. cbn [fst snd app].
  now destruct (open_for_writing_error output_file).
Qed.

(** X16. When the workbook parses into a table with a name column, the
    boundary is built and the output can be opened, the run returns whatever
    the rows hold: it prints one line for each row without a marker and saves
    the map of the boundary and of the markers that were composed. *)
Theorem run_completes_over_bad_rows (data_file geojson_file output_file bytes : string)
        (data : DataFrame) (fg : FeatureGroup) (s : State) :
  fs s !! data_file = Some bytes ->
  parse_excel bytes = Ok data ->
  is_Some (get_loc "IIT College" (columns data)) ->
  (create_feature_group geojson_file s).1 = Ok fg ->
  open_for_writing_error output_file = None ->
  create_iit_map data_file geojson_file output_file s =
    (Ok tt,
     mk_State
       (<[output_file :=
            render (map_of (mk_FeatureGroup (fg_name fg)
                              (fg_children fg ++ map MarkerLayer (composed data))))]>
          (fs s))
       (stdout s ++ diagnostics data)).
Proof.
  intros Hf Hp Hn Hg Hw.
  rewrite (create_iit_map_loaded _ _ _ _ _ _ _ Hf Hp Hn Hg). now rewrite Hw.
Qed.

(** X17. When the output cannot be opened for writing, the run raises the
    exception of the opening as it is, not wrapped; the lines for the rows
    without a marker are printed by then, and no file has changed. *)
Theorem write_error_is_passed_on (data_file geojson_file output_file bytes : string)
        (data : DataFrame) (fg : FeatureGroup) (e : exn) (s : State) :
  fs s !! data_file = Some bytes ->
  parse_excel bytes = Ok data ->
  is_Some (get_loc "IIT College" (columns data)) ->
  (create_feature_group geojson_file s).1 = Ok fg ->
  open_for_writing_error output_file = Some e ->
  create_iit_map data_file geojson_file output_file s =
    (Raise e, mk_State (fs s) (stdout s ++ diagnostics data)).
Proof.
  intros Hf Hp Hn Hg Hw.
  rewrite (create_iit_map_loaded _ _ _ _ _ _ _ Hf Hp Hn Hg). now rewrite Hw.
Qed.

(** X18. A workbook whose sheet has rows but no name column ends every run,
    once the boundary is built, with the [KeyError] of the name: nothing is
    printed and no file is written. *)
Theorem nameless_sheet_ends_run (data_file geojson_file output_file bytes : string)
        (data : DataFrame) (fg : FeatureGroup) (s : State) :
  fs s !! data_file = Some bytes ->
  parse_excel bytes = Ok data ->
  get_loc "IIT College" (columns data) = None ->
  rows data <> [] ->
  (create_feature_group geojson_file s).1 = Ok fg ->
  create_iit_map data_file geojson_file output_file s =
    (Raise (mk_exn KeyError "'IIT College'"), mk_State (fs s) (stdout s)).
Proof.
  intros Hf Hp Hn Hrows Hg. rewrite create_iit_map_unfold.
  rewrite (load_iit_data_parsed _ _ _ Hf), Hp, Hg. cbn [fst]. cbv zeta.
  destruct (add_iit_markers_nameless fg data [] Hn) as [_ Hrun]. rewrite Hrun.
  destruct (rows data); [contradiction|]. cbn [fst snd]. now rewrite app_nil_r.
Qed.

(** X20. [main] either writes the map to [final12.html] and ends its output
    with the line of success, or leaves every file as it was and ends its
    output with the last line of the checklist. *)
Theorem main_writes_or_leaves (s : State) :
  (exists map_obj,
     fs (main s).2 = <["final12.html" := render map_obj]> (fs s) /\
     last (stdout (main s).2) =
       Some "Map created successfully! Open final12.html in a web browser to view.") \/
  (fs (main s).2 = fs s /\
   last (stdout (main s).2) = Some "3. GeoJSON file exists and is valid").
Proof.
  unfold main, try_except, bind, print.
  destruct (create_iit_map "iit_data.xlsx" "india_states.json" "final12.html" s)
    as [[[]|e] s1] eqn:Hrun; cbn [fst snd fs stdout].
  - left. rewrite create_iit_map_unfold in Hrun.
    destruct (load_iit_data "iit_data.xlsx" s).1; [|discriminate].
    destruct (create_feature_group "india_states.json" s).1; [|discriminate].
    cbv zeta in Hrun. destruct (add_iit_markers a0 a []).1.1; [|discriminate].
    destruct (open_for_writing_error "final12.html"); [discriminate|].
    injection Hrun as <-. eexists. split; [reflexivity|]. apply last_snoc.
  - right. split; [exact (create_iit_map_Raise _ _ _ _ _ _ Hrun)|].
    cbn [fs stdout]. apply last_snoc.
Qed.

End Run.

Lemma create_iit_map_frame_witness :
  fs (@create_iit_map Sample.env "iit_data.xlsx" "india_states.json" "final12.html"
        Sample.start).2 !! "iit_data.xlsx" = fs Sample.start !! "iit_data.xlsx" /\
  fs (@create_iit_map Sample.env "iit_data.xlsx" "india_states.json" "final12.html"
        Sample.start_bad_boundary).2 = fs Sample.start_bad_boundary.
Proof.
  split.
  - apply (proj1 (@create_iit_map_frame Sample.env "iit_data.xlsx" "india_states.json"
                    "final12.html" Sample.start)).
    discriminate.
  - apply (proj1 (proj2 (@create_iit_map_frame Sample.env "iit_data.xlsx"
                           "india_states.json" "final12.html"
                           Sample.start_bad_boundary))
             (mk_exn Exception_
                "Error creating feature group: Expecting property name enclosed in double quotes: line 1 column 2 (char 1)")).
    vm_compute. reflexivity.
Defined.

Lemma run_completes_over_bad_rows_witness :
  @create_iit_map Cases.env "iit_data.xlsx" "india_states.json" "final12.html"
    Cases.start_gap =
    (Ok tt,
     mk_State
       (<["final12.html" :=
            @render Cases.env
              (map_of (mk_FeatureGroup "map"
                         ([GeoJson Sample.boundary] ++
                          map MarkerLayer (@composed Cases.env Sample.table_with_gap))))]>
          (fs Cases.start_gap))
       ([] ++ @diagnostics Cases.env Sample.table_with_gap)).
Proof.
  apply (@run_completes_over_bad_rows Cases.env "iit_data.xlsx" "india_states.json"
           "final12.html" "xlsx-gap" Sample.table_with_gap
           (mk_FeatureGroup "map" [GeoJson Sample.boundary]) Cases.start_gap).
  - vm_compute. reflexivity.
  - reflexivity.
  - eexists. reflexivity.
  - vm_compute. reflexivity.
  - reflexivity.
Defined.

Lemma write_error_is_passed_on_witness :
  @create_iit_map Sample.env "iit_data.xlsx" "india_states.json" EmptyString
    Sample.start =
    (Raise (mk_exn FileNotFoundError "[Errno 2] No such file or directory: ''"),
     mk_State (fs Sample.start) ([] ++ @diagnostics Sample.env Sample.table)).
Proof.
  apply (@write_error_is_passed_on Sample.env "iit_data.xlsx" "india_states.json"
           EmptyString "xlsx" Sample.table
           (mk_FeatureGroup "map" [GeoJson Sample.boundary])).
  - vm_compute. reflexivity.
  - reflexivity.
  - eexists. reflexivity.
  - vm_compute. reflexivity.
  - reflexivity.
Defined.

Lemma nameless_sheet_ends_run_witness :
  @create_iit_map Sample.env "iit_data.xlsx" "india_states.json" "final12.html"
    Sample.start_nameless =
    (Raise (mk_exn KeyError "'IIT College'"),
     mk_State (fs Sample.start_nameless) (stdout Sample.start_nameless)).
Proof.
  apply (@nameless_sheet_ends_run Sample.env "iit_data.xlsx" "india_states.json"
           "final12.html" "xlsx-nameless" Sample.nameless
           (mk_FeatureGroup "map" [GeoJson Sample.boundary])).
  - vm_compute. reflexivity.
  - reflexivity.
  - reflexivity.
  - discriminate.
  - vm_compute. reflexivity.
Defined.


